(** * Xenia host-process bootstrap (src/xenia/base/main_win.cc)

    A shallow embedding of the Windows entry sequence of Xenia:
    [has_shell_environment_variable], [AttachConsole],
    [RequestHighPerformance], [parse_launch_arguments], [Main] and the two
    OS entry symbols [main] / [wWinMain].

    The code talks to the operating system, the C runtime, the CPU and a few
    other translation units.  Everything it asks of them is gathered in one
    record, [World]; everything it does to them is appended to a
    chronological [trace] of [Event]s.  The only mutable data of the file
    itself are the global [has_console_attached_] and the two configuration
    variables declared with [DEFINE_bool]. *)

From Stdlib Require Import ZArith List String Ascii Bool Lia.
Import ListNotations.
Local Open Scope Z_scope.

(* ------------------------------------------------------------------ *)
(** ** Machine data *)

(** [size_t] on the 64-bit target: unsigned arithmetic wraps modulo 2^64. *)
Definition SIZE_MAX : Z := 2 ^ 64 - 1.
Definition size_add (a b : Z) : Z := (a + b) mod 2 ^ 64.

(** A wide C string [wchar_t*] is given by the code units that precede its
    terminating [L'\0']. *)
Definition wchar_t := Z.
Definition wstr := list wchar_t.

(** A narrow buffer [char*]: one cell per byte of the allocation, [None]
    while the byte is indeterminate (fresh [alloca] memory). *)
Definition NUL : ascii := Ascii.zero.
Definition buffer := list (option ascii).

Definition alloca (n : Z) : buffer := repeat None (Z.to_nat n).

(** Reading a buffer as a null-terminated string, as the [std::string]
    constructor from a [char] pointer does.  Running into an indeterminate
    byte or past the end of the allocation before a [NUL] is met has no
    defined result. *)
Fixpoint c_str (b : buffer) : option string :=
  match b with
  | [] => None
  | None :: _ => None
  | Some c :: rest =>
      if Ascii.eqb c NUL then Some EmptyString
      else option_map (String c) (c_str rest)
  end.

Definition string_of_bytes (l : list ascii) : string :=
  fold_right String EmptyString l.

(* ------------------------------------------------------------------ *)
(** ** Events, state, and the monad the code runs in *)

Inductive StdStream := stdout | stderr.
Inductive StdHandle := STD_OUTPUT_HANDLE | STD_ERROR_HANDLE.

Inductive Event :=
| EvGetCommandLineW
| EvCommandLineToArgvW
| EvLocalFree
| EvCvarParseLaunchArguments (argv : list string) (usage : string)
                             (options : list string)
| EvAttachConsoleParent
| EvGetenv (var : string)
| EvAllocConsole
| EvSetConsoleAttached (b : bool)
| EvGetStdHandle (h : StdHandle)
| EvOpenOsfhandle (text_mode : bool)
| EvFdopen (mode : string)
| EvFreopen (path mode : string) (stream : StdStream)
| EvCoInitializeEx
| EvInitializeLogging (app_name : string)
| EvFatalError (msg : string)
| EvLogInfo (msg : string)
| EvGetProcAddress (module proc : string)
| EvNtQueryTimerResolution
| EvNtSetTimerResolution (desired : Z) (set : bool)
| EvEntryPoint (args : list string)
| EvShutdownLogging.

(** The two configuration variables this file declares. *)
Record CVars := mkCVars {
  win32_high_freq : bool;
  enable_console : bool
}.

(** [DEFINE_bool(win32_high_freq, true, ...)],
    [DEFINE_bool(enable_console, false, ...)]. *)
Definition default_cvars : CVars :=
  {| win32_high_freq := true; enable_console := false |}.

Record State := mkState {
  has_console_attached_ : bool;
  cvars : CVars;
  trace : list Event
}.

(** [bool has_console_attached_ = true;] *)
Definition initial_state : State :=
  {| has_console_attached_ := true; cvars := default_cvars; trace := [] |}.

Inductive Exception := bad_optional_access.

(** A call returns a value, leaves by an exception, or has no defined
    behaviour; each with the state reached. *)
Inductive Outcome (A : Type) :=
| Ret (a : A) (s : State)
| Throw (e : Exception) (s : State)
| Undefined (s : State).
Arguments Ret {A} a s.
Arguments Throw {A} e s.
Arguments Undefined {A} s.

Definition M (A : Type) := State -> Outcome A.

Definition ret {A} (a : A) : M A := fun s => Ret a s.

Definition bind {A B} (c : M A) (k : A -> M B) : M B :=
  fun s =>
    match c s with
    | Ret a s' => k a s'
    | Throw e s' => Throw e s'
    | Undefined s' => Undefined s'
    end.

Notation "x <- c ;; k" := (bind c (fun x => k))
  (at level 61, c at next level, right associativity).
Notation "' pat <- c ;; k" :=
  (bind c (fun x => match x with pat => k end))
  (at level 61, pat pattern, c at next level, right associativity).
Notation "c ;;; k" := (bind c (fun _ => k))
  (at level 61, right associativity).

Definition emit (e : Event) : M unit :=
  fun s => Ret tt {| has_console_attached_ := has_console_attached_ s;
                     cvars := cvars s;
                     trace := trace s ++ [e] |}.

Definition get_cvars : M CVars := fun s => Ret (cvars s) s.

Definition set_cvars (c : CVars) : M unit :=
  fun s => Ret tt {| has_console_attached_ := has_console_attached_ s;
                     cvars := c;
                     trace := trace s |}.

Definition set_has_console_attached_ (b : bool) : M unit :=
  fun s => Ret tt {| has_console_attached_ := b;
                     cvars := cvars s;
                     trace := trace s ++ [EvSetConsoleAttached b] |}.

Definition throw {A} (e : Exception) : M A := fun s => Throw e s.
Definition undefined {A} : M A := fun s => Undefined s.

(** [std::optional<T>::value()]. *)
Definition value {A} (o : option A) : M A :=
  match o with
  | Some a => ret a
  | None => throw bad_optional_access
  end.

(** The [std::string] constructor from a [char] pointer. *)
Definition std_string (b : buffer) : M string :=
  match c_str b with
  | Some str => ret str
  | None => undefined
  end.

(* ------------------------------------------------------------------ *)
(** ** The application-supplied entry descriptor (xenia/base/main.h) *)

Record EntryInfo := mkEntryInfo {
  name : string;
  transparent_options : bool;
  positional_usage : option string;
  positional_options : option (list string);
  entry_point : list string -> Z
}.

(* ------------------------------------------------------------------ *)
(** ** The generated build/version.h *)

(** The string macros of build/version.h, which `xb premake` generates for
    each build; the pull-request group is present when [XE_BUILD_IS_PR] is
    defined. *)
Record PullRequest := mkPullRequest {
  XE_BUILD_PR_NUMBER : string;
  XE_BUILD_PR_REPO : string;
  XE_BUILD_PR_BRANCH : string;
  XE_BUILD_PR_COMMIT_SHORT : string
}.

Record Version := mkVersion {
  XE_BUILD_IS_PR : option PullRequest;
  XE_BUILD_BRANCH : string;
  XE_BUILD_COMMIT_SHORT : string;
  XE_BUILD_DATE : string
}.

(** The literal the preprocessor concatenates at lines 166-171. *)
Definition build_banner (v : Version) : string :=
  ("Build: "
   ++ match XE_BUILD_IS_PR v with
      | Some pr =>
          "PR#" ++ XE_BUILD_PR_NUMBER pr ++ " " ++ XE_BUILD_PR_REPO pr
          ++ " " ++ XE_BUILD_PR_BRANCH pr ++ "@"
          ++ XE_BUILD_PR_COMMIT_SHORT pr ++ " against "
      | None => ""
      end
   ++ XE_BUILD_BRANCH v ++ "@" ++ XE_BUILD_COMMIT_SHORT v
   ++ " on " ++ XE_BUILD_DATE v)%string.

(* ------------------------------------------------------------------ *)
(** ** What the code asks of its surroundings *)

Record World := mkWorld {
  (** [CommandLineToArgvW(GetCommandLineW(), &wargc)]: [None] for a null
      result, else the token array; [wargc] receives its length. *)
  os_CommandLineToArgvW : option (list wstr);
  (** the current locale's conversion of one wide character, [None] when
      the character has no multibyte representation *)
  crt_wctomb : wchar_t -> option (list ascii);
  (** the process environment block *)
  os_environment : string -> option string;
  (** [::AttachConsole(ATTACH_PARENT_PROCESS) == TRUE] *)
  os_AttachConsole_parent : bool;
  (** [GetProcAddress(GetModuleHandleW(module), proc)] is non-null *)
  os_GetProcAddress : string -> string -> bool;
  (** what [NtQueryTimerResolution] stores: minimum, maximum, current *)
  os_timer_resolution : Z * Z * Z;
  (** [Xbyak::util::Cpu::has(tAVX)] *)
  cpu_has_tAVX : bool;
  (** the option parser of xenia/base/cvar.cc, as its effect on the two
      variables of this file *)
  cvar_parse : list string -> string -> list string -> CVars -> CVars;
  (** [xe::GetEntryInfo()] *)
  GetEntryInfo : EntryInfo;
  (** the macros of the generated build/version.h *)
  build_version : Version
}.

(** [XE_PLATFORM_WIN32] is set by xenia/base/platform.h on Windows builds,
    the only ones this file is compiled in. *)
Definition XE_PLATFORM_WIN32 : bool := true.

Section Program.

Variable os : World.

(* ------------------------------------------------------------------ *)
(** ** C runtime: [wcstombs] and [getenv_s] *)

(** Number of bytes the whole conversion of [src] takes, terminator
    excluded; [None] when some character cannot be converted. *)
Fixpoint wcstombs_len (src : wstr) : option nat :=
  match src with
  | [] => Some 0%nat
  | wc :: rest =>
      match crt_wctomb os wc, wcstombs_len rest with
      | Some mb, Some k => Some (List.length mb + k)%nat
      | _, _ => None
      end
  end.

(** [wcstombs(nullptr, src, 0)]: the length, or [(size_t)-1]. *)
Definition wcstombs_measure (src : wstr) : Z :=
  match wcstombs_len src with
  | Some k => Z.of_nat k
  | None => SIZE_MAX
  end.

(** The bytes [wcstombs(dst, src, room)] stores: whole multibyte characters
    while they fit in [room] bytes, then the terminator if a byte is left.
    Conversion stops at a character that cannot be converted. *)
Fixpoint wcstombs_bytes (src : wstr) (room : nat) : list ascii :=
  match src with
  | [] => match room with O => [] | S _ => [NUL] end
  | wc :: rest =>
      match crt_wctomb os wc with
      | None => []
      | Some mb =>
          if (List.length mb <=? room)%nat
          then mb ++ wcstombs_bytes rest (room - List.length mb)
          else []
      end
  end.

(** Whether [wcstombs(dst, src, len)] stores inside [dst] only.  A store
    past the end of [dst] has no defined behaviour. *)
Definition wcstombs_in_bounds (dst : buffer) (src : wstr) (len : Z) : bool :=
  (List.length (wcstombs_bytes src (Z.to_nat len)) <=? List.length dst)%nat.

(** [wcstombs(dst, src, len)], as the contents of [dst] afterwards, for a
    store that is in bounds. *)
Definition wcstombs (dst : buffer) (src : wstr) (len : Z) : buffer :=
  let written := wcstombs_bytes src (Z.to_nat len) in
  map Some written ++ skipn (List.length written) dst.

(** [getenv_s(&size, nullptr, 0, var)]: returns [(error, size)].  With a
    null buffer of zero elements the call only measures: [size] is 0 when
    the variable is not found, else its length plus the terminator. *)
Definition getenv_s_measure (var : string) : M (Z * Z) :=
  emit (EvGetenv var) ;;;
  match os_environment os var with
  | None => ret (0, 0)
  | Some v => ret (0, Z.of_nat (String.length v) + 1)
  end.

(* ------------------------------------------------------------------ *)
(** ** Other translation units of Xenia *)

(** Modelled from the spec: [xe::InitializeLogging], [xe::ShutdownLogging],
    [xe::FatalError] and the [XELOGI] macro live in xenia/base/logging.cc,
    which is not part of the sources at hand.  Only their lifecycle is
    consumed: each is recorded as the call this file makes, with its
    argument, and returns to its caller.  What a call does inside the
    logging unit is not recorded: an [EvShutdownLogging] event is a call of
    [ShutdownLogging] made by [Main], an [EvFatalError] event the report of
    a user-facing message. *)
Definition InitializeLogging (app_name : string) : M unit :=
  emit (EvInitializeLogging app_name).
Definition ShutdownLogging : M unit := emit EvShutdownLogging.
Definition FatalError (msg : string) : M unit := emit (EvFatalError msg).
Definition XELOGI (msg : string) : M unit := emit (EvLogInfo msg).

Fixpoint read_argv (argv : list buffer) : M (list string) :=
  match argv with
  | [] => ret []
  | b :: rest =>
      str <- std_string b ;;
      strs <- read_argv rest ;;
      ret (str :: strs)
  end.

(** Modelled from the spec: [cvar::ParseLaunchArguments] (xenia/base/cvar.cc)
    parses argv into recognized options; it reads the [argc] strings of
    [argv] and updates the configuration registry. *)
Definition cvar_ParseLaunchArguments (argc : Z) (argv : list buffer)
    (usage : string) (options : list string) : M unit :=
  strs <- read_argv (firstn (Z.to_nat argc) argv) ;;
  emit (EvCvarParseLaunchArguments strs usage options) ;;;
  cv <- get_cvars ;;
  set_cvars (cvar_parse os strs usage options cv).

(* ------------------------------------------------------------------ *)
(** ** namespace xe *)

Definition has_console_attached : M bool :=
  fun s => Ret (has_console_attached_ s) s.

Definition has_shell_environment_variable : M bool :=
  '(error, size) <- getenv_s_measure "SHELL" ;;
  if negb (error =? 0) then ret false
  else ret (negb (size =? 0)).

Definition rebind (h : StdHandle) (stream : StdStream) : M unit :=
  emit (EvGetStdHandle h) ;;;
  emit (EvOpenOsfhandle true) ;;;
  emit (EvFdopen "w") ;;;
  emit (EvFreopen "CONOUT$" "w" stream).

(** The right operand of [||] is evaluated only when the left one is
    false: the environment is read only after a successful attach. *)
Definition AttachConsole : M unit :=
  emit EvAttachConsoleParent ;;;
  let has_console := os_AttachConsole_parent os in
  shell <- (if negb has_console then ret false
            else has_shell_environment_variable) ;;
  if negb has_console || negb shell then
    set_has_console_attached_ false
  else
    emit EvAllocConsole ;;;
    set_has_console_attached_ true ;;;
    rebind STD_OUTPUT_HANDLE stdout ;;;
    rebind STD_ERROR_HANDLE stderr.

Definition RequestHighPerformance : M unit :=
  if XE_PLATFORM_WIN32 then
    emit (EvGetProcAddress "ntdll.dll" "NtQueryTimerResolution") ;;;
    let NtQueryTimerResolution :=
      os_GetProcAddress os "ntdll.dll" "NtQueryTimerResolution" in
    emit (EvGetProcAddress "ntdll.dll" "NtSetTimerResolution") ;;;
    let NtSetTimerResolution :=
      os_GetProcAddress os "ntdll.dll" "NtSetTimerResolution" in
    if negb NtQueryTimerResolution || negb NtSetTimerResolution then
      ret tt
    else
      emit EvNtQueryTimerResolution ;;;
      let '(minimum_resolution, maximum_resolution, current_resolution) :=
        os_timer_resolution os in
      emit (EvNtSetTimerResolution maximum_resolution true)
  else ret tt.

(** One turn of the conversion loop, lines 114-116: [len + 1] in [size_t]
    arithmetic, the buffer [alloca] returns for it, and the contents of
    that buffer after the converting call. *)
Definition narrow_arg_size (warg : wstr) : Z :=
  let len := wcstombs_measure warg in
  size_add len 1.

Definition narrow_arg_buffer (warg : wstr) : buffer :=
  alloca (narrow_arg_size warg).

Definition narrow_arg (warg : wstr) : buffer :=
  wcstombs (narrow_arg_buffer warg) warg (narrow_arg_size warg).

(** The turn as it executes: were the converting call to store outside the
    buffer allocated for it, nothing would be defined from there on. *)
Definition narrow_turn (warg : wstr) : M buffer :=
  if wcstombs_in_bounds (narrow_arg_buffer warg) warg (narrow_arg_size warg)
  then ret (narrow_arg warg)
  else undefined.

(** [for (int n = 0; n < argc; n++) { ... argv[n] = ...; }] with [todo]
    turns left. *)
Fixpoint narrow_loop (wargv : list wstr) (n : nat) (todo : nat)
    : M (list buffer) :=
  match todo with
  | O => ret []
  | S todo' =>
      buf <- narrow_turn (nth n wargv []) ;;
      rest <- narrow_loop wargv (S n) todo' ;;
      ret (buf :: rest)
  end.

(** [for (int n = 0; n < argc; n++) args.push_back(std::string(argv[n]));] *)
Fixpoint push_loop (argv : list buffer) (n : nat) (todo : nat)
    (args : list string) : M (list string) :=
  match todo with
  | O => ret args
  | S todo' =>
      str <- std_string (nth n argv []) ;;
      push_loop argv (S n) todo' (args ++ [str])
  end.

(** Returns the [bool] result together with the contents of the
    out-parameter [args]. *)
Definition parse_launch_arguments (entry_info : EntryInfo)
    (args : list string) : M (bool * list string) :=
  emit EvGetCommandLineW ;;;
  emit EvCommandLineToArgvW ;;;
  match os_CommandLineToArgvW os with
  | None => ret (false, args)
  | Some wargv =>
      let wargc := Z.of_nat (List.length wargv) in
      let argc := wargc in
      argv <- narrow_loop wargv 0 (Z.to_nat argc) ;;
      emit EvLocalFree ;;;
      (if negb (transparent_options entry_info) then
         usage <- value (positional_usage entry_info) ;;
         options <- value (positional_options entry_info) ;;
         cvar_ParseLaunchArguments argc argv usage options
       else ret tt) ;;;
      args <- push_loop argv 0 (Z.to_nat argc) [] ;;
      ret (true, args)
  end.

Definition avx_message : string :=
  "Your CPU does not support AVX, which is required by Xenia. See the FAQ for system requirements at https://xenia.jp".

(** The banner logged by [XELOGI] is the literal made of "Build: " and the
    macros of the generated build/version.h. *)
Definition Main : M Z :=
  let entry_info := GetEntryInfo os in
  '(ok, args) <- parse_launch_arguments entry_info [] ;;
  if negb ok then ret 1
  else
    (cv <- get_cvars ;;
     if enable_console cv then AttachConsole else ret tt) ;;;
    emit EvCoInitializeEx ;;;
    InitializeLogging (name entry_info) ;;;
    if negb (cpu_has_tAVX os) then
      FatalError avx_message ;;;
      ret (-1)
    else
      XELOGI (build_banner (build_version os)) ;;;
      (cv <- get_cvars ;;
       if win32_high_freq cv then RequestHighPerformance else ret tt) ;;;
      let result := entry_point entry_info args in
      emit (EvEntryPoint args) ;;;
      ShutdownLogging ;;;
      ret result.

(** The OS entry symbols [main] and [wWinMain]: both return
    [xe::Main()], run from the state the globals are initialised to. *)
Definition main : Outcome Z := Main initial_state.
Definition wWinMain : Outcome Z := Main initial_state.

End Program.

(* ------------------------------------------------------------------ *)
(** ** Reading outcomes and traces *)

Definition state_of {A} (o : Outcome A) : State :=
  match o with
  | Ret _ s => s
  | Throw _ s => s
  | Undefined s => s
  end.

Definition occurrences (p : Event -> bool) (t : list Event) : nat :=
  List.length (filter p t).

Definition is_entry_point (e : Event) : bool :=
  match e with EvEntryPoint _ => true | _ => false end.

Definition is_initialize_logging (e : Event) : bool :=
  match e with EvInitializeLogging _ => true | _ => false end.

Definition is_shutdown_logging (e : Event) : bool :=
  match e with EvShutdownLogging => true | _ => false end.

Definition is_fatal_error (e : Event) : bool :=
  match e with EvFatalError _ => true | _ => false end.

Definition is_alloc_console (e : Event) : bool :=
  match e with EvAllocConsole => true | _ => false end.

(** Events of [parse_launch_arguments]. *)
Definition is_marshalling_event (e : Event) : bool :=
  match e with
  | EvGetCommandLineW | EvCommandLineToArgvW | EvLocalFree
  | EvCvarParseLaunchArguments _ _ _ => true
  | _ => false
  end.

(** Events of [AttachConsole]. *)
Definition is_console_event (e : Event) : bool :=
  match e with
  | EvAttachConsoleParent | EvGetenv _ | EvAllocConsole
  | EvSetConsoleAttached _ | EvGetStdHandle _ | EvOpenOsfhandle _
  | EvFdopen _ | EvFreopen _ _ _ => true
  | _ => false
  end.

(** Events of [RequestHighPerformance]. *)
Definition is_timer_event (e : Event) : bool :=
  match e with
  | EvGetProcAddress _ _ | EvNtQueryTimerResolution
  | EvNtSetTimerResolution _ _ => true
  | _ => false
  end.

(** Subsystem initialisation: COM and logging. *)
Definition is_subsystem_event (e : Event) : bool :=
  match e with
  | EvCoInitializeEx | EvInitializeLogging _ => true
  | _ => false
  end.

(** The whole multibyte conversion of a token under the locale of [os]. *)
Definition multibyte (os : World) (tok : wstr) : list ascii :=
  flat_map (fun wc => match crt_wctomb os wc with
                      | Some mb => mb
                      | None => []
                      end) tok.

Definition narrow (os : World) (tok : wstr) : string :=
  string_of_bytes (multibyte os tok).

(** A token the locale can convert: every character has a multibyte form
    free of [NUL] bytes, and the result fits a [size_t] with its
    terminator. *)
Definition convertible_char (os : World) (wc : wchar_t) : bool :=
  match crt_wctomb os wc with
  | Some mb => forallb (fun c => negb (Ascii.eqb c NUL)) mb
  | None => false
  end.

Definition convertible (os : World) (tok : wstr) : bool :=
  forallb (convertible_char os) tok
  && (Z.of_nat (List.length (multibyte os tok)) <? SIZE_MAX).

(* ------------------------------------------------------------------ *)
(** ** Sample surroundings *)

(** The "C" locale: a wide character below 256 is its own single byte, any
    other has no multibyte form. *)
Definition c_locale (wc : wchar_t) : option (list ascii) :=
  if (0 <? wc) && (wc <? 256) then Some [ascii_of_nat (Z.to_nat wc)]
  else None.

Definition wide (s : string) : wstr :=
  map (fun c => Z.of_nat (nat_of_ascii c)) (list_ascii_of_string s).

Definition sample_version : Version :=
  {| XE_BUILD_IS_PR := None;
     XE_BUILD_BRANCH := "master";
     XE_BUILD_COMMIT_SHORT := "c0ffee1";
     XE_BUILD_DATE := "Jan  1 2021" |}.

Definition sample_entry : EntryInfo :=
  {| name := "xenia";
     transparent_options := true;
     positional_usage := None;
     positional_options := None;
     entry_point := fun args => Z.of_nat (List.length args) |}.

(** Raw command line [prog.exe --flag value], launched from a GUI shell on
    a CPU with AVX. *)
Definition sample_world : World :=
  {| os_CommandLineToArgvW :=
       Some [wide "prog.exe"; wide "--flag"; wide "value"];
     crt_wctomb := c_locale;
     os_environment := fun _ => None;
     os_AttachConsole_parent := false;
     os_GetProcAddress := fun _ _ => true;
     os_timer_resolution := (156250, 5000, 156250);
     cpu_has_tAVX := true;
     cvar_parse := fun _ _ _ cv => cv;
     GetEntryInfo := sample_entry;
     build_version := sample_version |}.

Definition with_cpu (avx : bool) (os : World) : World :=
  {| os_CommandLineToArgvW := os_CommandLineToArgvW os;
     crt_wctomb := crt_wctomb os;
     os_environment := os_environment os;
     os_AttachConsole_parent := os_AttachConsole_parent os;
     os_GetProcAddress := os_GetProcAddress os;
     os_timer_resolution := os_timer_resolution os;
     cpu_has_tAVX := avx;
     cvar_parse := cvar_parse os;
     GetEntryInfo := GetEntryInfo os;
     build_version := build_version os |}.

Definition with_command_line (cl : option (list wstr)) (os : World) : World :=
  {| os_CommandLineToArgvW := cl;
     crt_wctomb := crt_wctomb os;
     os_environment := os_environment os;
     os_AttachConsole_parent := os_AttachConsole_parent os;
     os_GetProcAddress := os_GetProcAddress os;
     os_timer_resolution := os_timer_resolution os;
     cpu_has_tAVX := cpu_has_tAVX os;
     cvar_parse := cvar_parse os;
     GetEntryInfo := GetEntryInfo os;
     build_version := build_version os |}.

Definition with_entry (ei : EntryInfo) (os : World) : World :=
  {| os_CommandLineToArgvW := os_CommandLineToArgvW os;
     crt_wctomb := crt_wctomb os;
     os_environment := os_environment os;
     os_AttachConsole_parent := os_AttachConsole_parent os;
     os_GetProcAddress := os_GetProcAddress os;
     os_timer_resolution := os_timer_resolution os;
     cpu_has_tAVX := cpu_has_tAVX os;
     cvar_parse := cvar_parse os;
     GetEntryInfo := ei;
     build_version := build_version os |}.

(** A console launch: attached to the parent's console, [SHELL] set, and
    an option parser that switches [enable_console] on. *)
Definition console_entry : EntryInfo :=
  {| name := "xenia";
     transparent_options := false;
     positional_usage := Some "[Path to .iso/.xex]"%string;
     positional_options := Some ["target"%string];
     entry_point := fun _ => 0 |}.

Definition console_world : World :=
  {| os_CommandLineToArgvW := Some [wide "xenia.exe"];
     crt_wctomb := c_locale;
     os_environment :=
       fun v => if String.eqb v "SHELL" then Some "/usr/bin/bash"%string
                else None;
     os_AttachConsole_parent := true;
     os_GetProcAddress := fun _ _ => true;
     os_timer_resolution := (156250, 5000, 156250);
     cpu_has_tAVX := true;
     cvar_parse := fun _ _ _ cv =>
       {| win32_high_freq := false; enable_console := true |};
     GetEntryInfo := console_entry;
     build_version := sample_version |}.

Definition with_environment (env : string -> option string)
    (attach : bool) (os : World) : World :=
  {| os_CommandLineToArgvW := os_CommandLineToArgvW os;
     crt_wctomb := crt_wctomb os;
     os_environment := env;
     os_AttachConsole_parent := attach;
     os_GetProcAddress := os_GetProcAddress os;
     os_timer_resolution := os_timer_resolution os;
     cpu_has_tAVX := cpu_has_tAVX os;
     cvar_parse := cvar_parse os;
     GetEntryInfo := GetEntryInfo os;
     build_version := build_version os |}.

Definition with_ntdll (gpa : string -> string -> bool) (os : World) : World :=
  {| os_CommandLineToArgvW := os_CommandLineToArgvW os;
     crt_wctomb := crt_wctomb os;
     os_environment := os_environment os;
     os_AttachConsole_parent := os_AttachConsole_parent os;
     os_GetProcAddress := gpa;
     os_timer_resolution := os_timer_resolution os;
     cpu_has_tAVX := cpu_has_tAVX os;
     cvar_parse := cvar_parse os;
     GetEntryInfo := GetEntryInfo os;
     build_version := build_version os |}.

(** An outcome that leaves by an exception. *)
Definition throws {A} (o : Outcome A) : bool :=
  match o with Throw _ _ => true | _ => false end.

Definition is_cvar_parse (e : Event) : bool :=
  match e with EvCvarParseLaunchArguments _ _ _ => true | _ => false end.

(** The two lookups [RequestHighPerformance] starts with. *)
Definition timer_lookups : list Event :=
  [EvGetProcAddress "ntdll.dll" "NtQueryTimerResolution";
   EvGetProcAddress "ntdll.dll" "NtSetTimerResolution"].

(** The state [parse_launch_arguments] leaves: configuration [c], events
    [evs] appended. *)
Definition marshalled (s : State) (c : CVars) (evs : list Event) : State :=
  {| has_console_attached_ := has_console_attached_ s;
     cvars := c;
     trace := trace s ++ evs |}.

(** A command line with a token outside the locale: U+3042. *)
Definition kana_world : World :=
  with_command_line (Some [wide "prog.exe"; [12354]]) sample_world.

(** Both optionals populated, option parsing switching the timer request
    off, and [NtQueryTimerResolution] missing from ntdll. *)
Definition quiet_world : World :=
  with_entry console_entry
    (with_ntdll (fun _ p => String.eqb p "NtSetTimerResolution")
                console_world).

(** An entry descriptor that asks for option parsing but leaves
    [positional_options] empty. *)
Definition bare_entry : EntryInfo :=
  {| name := "xenia";
     transparent_options := false;
     positional_usage := Some "[Path to .iso/.xex]"%string;
     positional_options := None;
     entry_point := fun _ => 0 |}.

(** Further event classes. *)
Definition is_flag_write (e : Event) : bool :=
  match e with EvSetConsoleAttached _ => true | _ => false end.

Definition is_local_free (e : Event) : bool :=
  match e with EvLocalFree => true | _ => false end.

Definition is_log_info (e : Event) : bool :=
  match e with EvLogInfo _ => true | _ => false end.

(** Whether the environment block defines [SHELL]. *)
Definition shell_defined (os : World) : bool :=
  match os_environment os "SHELL" with
  | Some _ => true
  | None => false
  end.

(** The four calls that rebind one standard stream, lines 64-67 and
    69-72. *)
Definition rebind_events (h : StdHandle) (stream : StdStream) : list Event :=
  [EvGetStdHandle h; EvOpenOsfhandle true; EvFdopen "w";
   EvFreopen "CONOUT$" "w" stream].

(** What [RequestHighPerformance] does after the two lookups. *)
Definition timer_requests (os : World) : list Event :=
  if os_GetProcAddress os "ntdll.dll" "NtQueryTimerResolution"
     && os_GetProcAddress os "ntdll.dll" "NtSetTimerResolution"
  then [EvNtQueryTimerResolution;
        EvNtSetTimerResolution (snd (fst (os_timer_resolution os))) true]
  else [].

(** A string as [wide] can carry it through the conversion: no [NUL]
    character, and short enough for a [size_t] length. *)
Definition plain (str : string) : bool :=
  forallb (fun c => negb (Ascii.eqb c NUL)) (list_ascii_of_string str)
  && (Z.of_nat (String.length str) <? SIZE_MAX).

(** [SHELL] defined but empty, parent console attached. *)
Definition empty_shell_world : World :=
  with_environment
    (fun v => if String.eqb v "SHELL" then Some EmptyString else None)
    true console_world.

(* ------------------------------------------------------------------ *)
(** ** Counting events *)

Lemma occurrences_app p (a b : list Event) :
  occurrences p (a ++ b) = (occurrences p a + occurrences p b)%nat.
Proof.
  unfold occurrences. rewrite filter_app, length_app. reflexivity.
Qed.

Lemma occurrences_cons p e (l : list Event) :
  occurrences p (e :: l)
  = ((if p e then 1 else 0) + occurrences p l)%nat.
Proof. unfold occurrences. simpl. destruct (p e); reflexivity. Qed.

Lemma occurrences_disjoint (q p : Event -> bool) (l : list Event) :
  forallb q l = true ->
  (forall e, q e = true -> p e = false) ->
  occurrences p l = 0%nat.
Proof.
  intros Hq Hqp. induction l as [|e l IH]; [reflexivity|].
  simpl in Hq. apply andb_true_iff in Hq as [He Hl].
  unfold occurrences in *. simpl. rewrite (Hqp e He). auto.
Qed.

(* ------------------------------------------------------------------ *)
(** ** The conversion of one token *)

Section Conversion.

Variable os : World.

Lemma multibyte_cons wc tok :
  multibyte os (wc :: tok) =
  match crt_wctomb os wc with Some mb => mb | None => [] end
  ++ multibyte os tok.
Proof. reflexivity. Qed.

Lemma wcstombs_len_convertible tok :
  forallb (convertible_char os) tok = true ->
  wcstombs_len os tok = Some (List.length (multibyte os tok)).
Proof.
  induction tok as [|wc tok IH]; intros H; [reflexivity|].
  simpl in H. apply andb_true_iff in H as [Hc Ht].
  rewrite multibyte_cons. simpl. unfold convertible_char in Hc.
  destruct (crt_wctomb os wc) as [mb|]; [|discriminate].
  rewrite (IH Ht), length_app. reflexivity.
Qed.

Lemma wcstombs_bytes_fit tok : forall room,
  forallb (convertible_char os) tok = true ->
  (List.length (multibyte os tok) < room)%nat ->
  wcstombs_bytes os tok room = multibyte os tok ++ [NUL].
Proof.
  induction tok as [|wc tok IH]; intros room H Hroom.
  - simpl in *. destruct room; [lia | reflexivity].
  - simpl in H. apply andb_true_iff in H as [Hc Ht].
    rewrite multibyte_cons in *. simpl. unfold convertible_char in Hc.
    destruct (crt_wctomb os wc) as [mb|]; [|discriminate].
    rewrite length_app in Hroom.
    replace (List.length mb <=? room)%nat with true
      by (symmetry; apply Nat.leb_le; lia).
    rewrite IH by (auto; lia). rewrite app_assoc. reflexivity.
Qed.

Lemma multibyte_no_nul tok :
  forallb (convertible_char os) tok = true ->
  forallb (fun c => negb (Ascii.eqb c NUL)) (multibyte os tok) = true.
Proof.
  induction tok as [|wc tok IH]; intros H; [reflexivity|].
  simpl in H. apply andb_true_iff in H as [Hc Ht].
  rewrite multibyte_cons, forallb_app, (IH Ht), andb_true_r.
  unfold convertible_char in Hc.
  destruct (crt_wctomb os wc); [exact Hc | discriminate].
Qed.

Lemma c_str_terminated (l : list ascii) :
  forallb (fun c => negb (Ascii.eqb c NUL)) l = true ->
  c_str (map Some (l ++ [NUL])) = Some (string_of_bytes l).
Proof.
  induction l as [|c l IH]; intros H; [reflexivity|].
  simpl in H. apply andb_true_iff in H as [Hc Hl].
  simpl. apply negb_true_iff in Hc. rewrite Hc, (IH Hl). reflexivity.
Qed.

Lemma convertible_inv tok :
  convertible os tok = true ->
  forallb (convertible_char os) tok = true /\
  Z.of_nat (List.length (multibyte os tok)) < SIZE_MAX.
Proof.
  unfold convertible. intros H. apply andb_true_iff in H as [H1 H2].
  split; [exact H1 | apply Z.ltb_lt; exact H2].
Qed.

(** For a convertible token the measured length is the length of the whole
    conversion, and the buffer of one byte more receives all of it followed
    by the terminator. *)
Lemma narrow_arg_convertible tok :
  convertible os tok = true ->
  wcstombs_measure os tok = Z.of_nat (List.length (multibyte os tok)) /\
  narrow_arg os tok = map Some (multibyte os tok ++ [NUL]).
Proof.
  intros H. apply convertible_inv in H as [Hc Hlen].
  assert (Hm : wcstombs_measure os tok
               = Z.of_nat (List.length (multibyte os tok))).
  { unfold wcstombs_measure. rewrite (wcstombs_len_convertible _ Hc).
    reflexivity. }
  split; [exact Hm|].
  unfold narrow_arg, narrow_arg_buffer, narrow_arg_size, wcstombs, alloca.
  rewrite Hm.
  set (k := List.length (multibyte os tok)) in *.
  assert (Hsz : size_add (Z.of_nat k) 1 = Z.of_nat (S k)).
  { unfold size_add. unfold SIZE_MAX in Hlen.
    rewrite Z.mod_small by lia. lia. }
  rewrite Hsz, Nat2Z.id.
  rewrite wcstombs_bytes_fit by (auto; subst k; lia).
  rewrite skipn_all2.
  - apply app_nil_r.
  - rewrite repeat_length, length_app. simpl. subst k. lia.
Qed.

Lemma c_str_narrow_arg tok :
  convertible os tok = true ->
  c_str (narrow_arg os tok) = Some (narrow os tok).
Proof.
  intros H. destruct (narrow_arg_convertible _ H) as [_ ->].
  apply c_str_terminated, multibyte_no_nul.
  apply convertible_inv in H. tauto.
Qed.

Lemma wcstombs_bytes_bound (src : wstr) : forall room,
  (List.length (wcstombs_bytes os src room) <= room)%nat.
Proof.
  induction src as [|wc src IH]; intros room.
  - simpl. destruct room; simpl; lia.
  - simpl. destruct (crt_wctomb os wc) as [mb|]; [|simpl; lia].
    destruct (List.length mb <=? room)%nat eqn:Hfit; [|simpl; lia].
    apply Nat.leb_le in Hfit. rewrite length_app.
    specialize (IH (room - List.length mb)%nat). lia.
Qed.

(** The converting call is given as its limit the size of the buffer, so it
    stays inside it. *)
Lemma narrow_turn_in_bounds (tok : wstr) (s : State) :
  narrow_turn os tok s = Ret (narrow_arg os tok) s.
Proof.
  unfold narrow_turn, wcstombs_in_bounds, narrow_arg_buffer, alloca.
  rewrite repeat_length.
  pose proof (wcstombs_bytes_bound tok (Z.to_nat (narrow_arg_size os tok)))
    as Hbound.
  apply Nat.leb_le in Hbound. rewrite Hbound. reflexivity.
Qed.

Lemma narrow_loop_map : forall l pre s,
  narrow_loop os (pre ++ l) (List.length pre) (List.length l) s
  = Ret (map (narrow_arg os) l) s.
Proof.
  induction l as [|tok l IH]; intros pre s; [reflexivity|].
  simpl. unfold bind. rewrite nth_middle, narrow_turn_in_bounds.
  specialize (IH (pre ++ [tok]) s).
  rewrite <- app_assoc, length_app, Nat.add_1_r in IH. simpl in IH.
  rewrite IH. reflexivity.
Qed.

Lemma narrow_loop_all (wargv : list wstr) (s : State) :
  narrow_loop os wargv 0 (Z.to_nat (Z.of_nat (List.length wargv))) s
  = Ret (map (narrow_arg os) wargv) s.
Proof. rewrite Nat2Z.id. apply (narrow_loop_map wargv [] s). Qed.

Lemma push_loop_convertible : forall l pre acc s,
  forallb (convertible os) l = true ->
  push_loop (map (narrow_arg os) (pre ++ l)) (List.length pre)
            (List.length l) acc s
  = Ret (acc ++ map (narrow os) l) s.
Proof.
  induction l as [|tok l IH]; intros pre acc s H.
  - simpl. rewrite app_nil_r. reflexivity.
  - simpl in H. apply andb_true_iff in H as [Ht Hl].
    simpl. unfold bind, std_string.
    rewrite map_app. simpl.
    assert (Hnth : nth (List.length pre)
                     (map (narrow_arg os) pre
                      ++ narrow_arg os tok :: map (narrow_arg os) l) []
                   = narrow_arg os tok).
    { rewrite <- (length_map (narrow_arg os) pre). apply nth_middle. }
    rewrite Hnth, (c_str_narrow_arg _ Ht). unfold ret.
    specialize (IH (pre ++ [tok]) (acc ++ [narrow os tok]) s Hl).
    rewrite <- !app_assoc, length_app, Nat.add_1_r, map_app in IH.
    simpl in IH. rewrite IH. reflexivity.
Qed.

Lemma read_argv_convertible : forall l s,
  forallb (convertible os) l = true ->
  read_argv (map (narrow_arg os) l) s = Ret (map (narrow os) l) s.
Proof.
  induction l as [|tok l IH]; intros s H; [reflexivity|].
  simpl in H. apply andb_true_iff in H as [Ht Hl].
  simpl. unfold bind, std_string. rewrite (c_str_narrow_arg _ Ht).
  unfold ret. rewrite (IH s Hl). reflexivity.
Qed.

End Conversion.

(* ------------------------------------------------------------------ *)
(** ** What each procedure leaves behind *)

Section Frames.

Variable os : World.

Lemma std_string_frame b s :
  state_of (std_string b s) = s /\ throws (std_string b s) = false.
Proof. unfold std_string. destruct (c_str b); split; reflexivity. Qed.

Lemma read_argv_frame : forall argv s,
  state_of (read_argv argv s) = s /\ throws (read_argv argv s) = false.
Proof.
  induction argv as [|b argv IH]; intros s; [split; reflexivity|].
  simpl. unfold bind. destruct (std_string_frame b s) as [Hs Ht].
  destruct (std_string b s) as [str s1| |s1]; simpl in *; try discriminate;
    subst s1; [|split; reflexivity].
  destruct (IH s) as [Hs' Ht'].
  destruct (read_argv argv s) as [strs s1| |s1]; simpl in *;
    try discriminate; subst s1; split; reflexivity.
Qed.

Lemma push_loop_frame argv : forall todo n args s,
  state_of (push_loop argv n todo args s) = s /\
  throws (push_loop argv n todo args s) = false.
Proof.
  induction todo as [|todo IH]; intros n args s; [split; reflexivity|].
  simpl. unfold bind. destruct (std_string_frame (nth n argv []) s) as [Hs Ht].
  destruct (std_string (nth n argv []) s) as [str s1| |s1]; simpl in *;
    try discriminate; subst s1; [apply IH | split; reflexivity].
Qed.


(** [parse_launch_arguments] leaves the console flag alone and performs
    marshalling events only. *)
Lemma parse_launch_arguments_frame ei args0 s :
  let o := parse_launch_arguments os ei args0 s in
  has_console_attached_ (state_of o) = has_console_attached_ s /\
  exists evs, trace (state_of o) = trace s ++ evs /\
              forallb is_marshalling_event evs = true.
Proof.
  unfold parse_launch_arguments, bind, emit. simpl.
  destruct (os_CommandLineToArgvW os) as [wargv|]; simpl.
  2:{ split; [reflexivity|]. rewrite <- app_assoc. eexists; split; eauto. }
  rewrite narrow_loop_all. simpl.
  set (argv := map (narrow_arg os) wargv).
  set (todo := Z.to_nat (Z.of_nat (List.length wargv))).
  destruct (transparent_options ei); simpl.
  - match goal with |- context [push_loop argv 0 todo [] ?s0] =>
      destruct (push_loop_frame argv todo 0%nat [] s0) as [Hs Ht];
      destruct (push_loop argv 0 todo [] s0) as [a s1| |s1]
    end; simpl in *; try discriminate; subst s1; simpl;
      (split; [reflexivity|]); rewrite <- !app_assoc; eexists; split; eauto.
  - unfold value.
    destruct (positional_usage ei) as [usage|]; simpl.
    2:{ split; [reflexivity|]. rewrite <- !app_assoc.
        eexists; split; eauto. }
    destruct (positional_options ei) as [options|]; simpl.
    2:{ split; [reflexivity|]. rewrite <- !app_assoc.
        eexists; split; eauto. }
    unfold cvar_ParseLaunchArguments, bind, emit, get_cvars, set_cvars.
    match goal with |- context [read_argv ?l ?s0] =>
      destruct (read_argv_frame l s0) as [Hs Ht];
      destruct (read_argv l s0) as [strs s1| |s1]
    end; simpl in *; try discriminate; subst s1; simpl.
    2:{ split; [reflexivity|]. rewrite <- !app_assoc.
        eexists; split; eauto. }
    match goal with |- context [push_loop argv 0 todo [] ?s0] =>
      destruct (push_loop_frame argv todo 0%nat [] s0) as [Hs Ht'];
      destruct (push_loop argv 0 todo [] s0) as [a s1| |s1]
    end; simpl in *; try discriminate; subst s1; simpl;
      (split; [reflexivity|]); rewrite <- !app_assoc; eexists; split; eauto.
Qed.

Lemma has_shell_environment_variable_eq s :
  has_shell_environment_variable os s =
  Ret (match os_environment os "SHELL" with Some _ => true | None => false end)
      {| has_console_attached_ := has_console_attached_ s;
         cvars := cvars s;
         trace := trace s ++ [EvGetenv "SHELL"] |}.
Proof.
  unfold has_shell_environment_variable, getenv_s_measure, bind, emit, ret.
  destruct (os_environment os "SHELL") as [v|]; simpl; [|reflexivity].
  replace (Z.of_nat (String.length v) + 1 =? 0) with false
    by (symmetry; apply Z.eqb_neq; lia).
  reflexivity.
Qed.

(** [AttachConsole] always returns, leaves the configuration alone and
    performs console events only. *)
Lemma AttachConsole_frame s :
  exists s' evs,
    AttachConsole os s = Ret tt s' /\
    cvars s' = cvars s /\
    trace s' = trace s ++ evs /\
    forallb is_console_event evs = true.
Proof.
  unfold AttachConsole, bind. simpl.
  destruct (os_AttachConsole_parent os); simpl.
  - rewrite has_shell_environment_variable_eq.
    destruct (os_environment os "SHELL"); simpl;
      eexists; eexists; (split; [reflexivity|]); simpl;
      (split; [reflexivity|]); rewrite <- !app_assoc; split; eauto.
  - eexists; eexists; (split; [reflexivity|]); simpl;
      (split; [reflexivity|]); rewrite <- !app_assoc; split; eauto.
Qed.

(** [RequestHighPerformance] always returns, leaves the globals alone and
    performs timer events only. *)
Lemma RequestHighPerformance_frame s :
  exists s' evs,
    RequestHighPerformance os s = Ret tt s' /\
    cvars s' = cvars s /\
    has_console_attached_ s' = has_console_attached_ s /\
    trace s' = trace s ++ evs /\
    forallb is_timer_event evs = true.
Proof.
  unfold RequestHighPerformance, bind. simpl.
  destruct (os_GetProcAddress os "ntdll.dll" "NtQueryTimerResolution");
    destruct (os_GetProcAddress os "ntdll.dll" "NtSetTimerResolution");
    simpl; try destruct (os_timer_resolution os) as [[mn mx] cur]; simpl;
    eexists; eexists; (split; [reflexivity|]); simpl;
    (split; [reflexivity|]); (split; [reflexivity|]);
    rewrite <- !app_assoc; split; eauto.
Qed.

End Frames.

(* ------------------------------------------------------------------ *)
(** ** The shape of a run of [Main] *)

Section Sequencer.

Variable os : World.

Lemma Main_marshalling_failed s args s1 :
  parse_launch_arguments os (GetEntryInfo os) [] s = Ret (false, args) s1 ->
  Main os s = Ret 1 s1.
Proof. intros H. unfold Main, bind. rewrite H. reflexivity. Qed.

Lemma Main_marshalling_throws s e s1 :
  parse_launch_arguments os (GetEntryInfo os) [] s = Throw e s1 ->
  Main os s = Throw e s1.
Proof. intros H. unfold Main, bind. rewrite H. reflexivity. Qed.

Lemma Main_marshalling_undefined s s1 :
  parse_launch_arguments os (GetEntryInfo os) [] s = Undefined s1 ->
  Main os s = Undefined s1.
Proof. intros H. unfold Main, bind. rewrite H. reflexivity. Qed.

(** Once the arguments are marshalled, [Main] returns; its trace is the
    marshalling trace, then the console events [cons] (none unless
    [enable_console]), COM and logging initialisation, and then either the
    fatal error, or the banner, the timer events [tim] (none unless
    [win32_high_freq]), the entry point and logging shutdown. *)
Lemma Main_marshalled s args s1 :
  parse_launch_arguments os (GetEntryInfo os) [] s = Ret (true, args) s1 ->
  exists s2 cons tim s',
    Main os s
    = Ret (if cpu_has_tAVX os then entry_point (GetEntryInfo os) args else -1)
          s' /\
    (if enable_console (cvars s1) then AttachConsole os s1 = Ret tt s2
     else s2 = s1 /\ cons = []) /\
    trace s2 = trace s1 ++ cons /\
    forallb is_console_event cons = true /\
    (win32_high_freq (cvars s1) = false -> tim = []) /\
    forallb is_timer_event tim = true /\
    cvars s' = cvars s1 /\
    has_console_attached_ s' = has_console_attached_ s2 /\
    trace s' =
      trace s2
      ++ [EvCoInitializeEx; EvInitializeLogging (name (GetEntryInfo os))]
      ++ (if cpu_has_tAVX os
          then [EvLogInfo (build_banner (build_version os))] ++ tim
               ++ [EvEntryPoint args; EvShutdownLogging]
          else [EvFatalError avx_message]).
Proof.
  intros Hparse. unfold Main, bind. rewrite Hparse. simpl.
  assert (Hcons : exists s2 cons,
    (if enable_console (cvars s1) then AttachConsole os s1 = Ret tt s2
     else s2 = s1 /\ cons = []) /\
    (if enable_console (cvars s1) then AttachConsole os else ret tt) s1
      = Ret tt s2 /\
    cvars s2 = cvars s1 /\
    trace s2 = trace s1 ++ cons /\
    forallb is_console_event cons = true).
  { destruct (enable_console (cvars s1)).
    - destruct (AttachConsole_frame os s1) as (s2 & cons & H1 & H2 & H3 & H4).
      exists s2, cons. auto.
    - exists s1, []. rewrite app_nil_r. auto. }
  destruct Hcons as (s2 & cons & Hif & Hrun & Hcv & Htr & Hall).
  exists s2, cons.
  rewrite Hrun. simpl.
  destruct (cpu_has_tAVX os); simpl.
  - rewrite Hcv.
    match goal with |- context [(if _ then _ else _) ?st] =>
      set (s3 := st)
    end.
    assert (Htim : exists s4 tim,
      (if win32_high_freq (cvars s1) then RequestHighPerformance os
       else ret tt) s3 = Ret tt s4 /\
      (win32_high_freq (cvars s1) = false -> tim = []) /\
      cvars s4 = cvars s1 /\
      has_console_attached_ s4 = has_console_attached_ s2 /\
      trace s4 = trace s3 ++ tim /\
      forallb is_timer_event tim = true).
    { destruct (win32_high_freq (cvars s1)).
      - destruct (RequestHighPerformance_frame os s3)
          as (s4 & tim & H1 & H2 & H3 & H4 & H5).
        exists s4, tim. repeat split; auto. discriminate.
      - exists s3, []. rewrite app_nil_r. repeat split; auto. }
    destruct Htim as (s4 & tim & Hrun' & Hoff & Hcv' & Hfl & Htr' & Hall').
    rewrite Hrun'. unfold ret. simpl.
    exists tim. eexists. split; [reflexivity|]. simpl.
    repeat split; auto.
    rewrite Htr'. subst s3. simpl. rewrite <- !app_assoc. reflexivity.
  - unfold ret. simpl.
    exists []. eexists. split; [reflexivity|]. simpl.
    repeat split; auto.
    rewrite <- !app_assoc. reflexivity.
Qed.

End Sequencer.

(* ------------------------------------------------------------------ *)
(** ** Exact behaviour of the two negotiators *)

Lemma AttachConsole_headless (os : World) (s : State) :
  os_AttachConsole_parent os = false \/ os_environment os "SHELL" = None ->
  AttachConsole os s =
  Ret tt {| has_console_attached_ := false;
            cvars := cvars s;
            trace := trace s
                     ++ EvAttachConsoleParent
                        :: (if os_AttachConsole_parent os
                            then [EvGetenv "SHELL"] else [])
                        ++ [EvSetConsoleAttached false] |}.
Proof.
  intros H. unfold AttachConsole, bind. simpl.
  destruct (os_AttachConsole_parent os) eqn:Hattach; simpl.
  - destruct H as [H|H]; [discriminate|].
    rewrite has_shell_environment_variable_eq, H. simpl.
    unfold set_has_console_attached_. simpl.
    rewrite <- !app_assoc. reflexivity.
  - unfold set_has_console_attached_. simpl.
    rewrite <- !app_assoc. reflexivity.
Qed.

Lemma RequestHighPerformance_eq (os : World) (s : State) :
  RequestHighPerformance os s =
  Ret tt {| has_console_attached_ := has_console_attached_ s;
            cvars := cvars s;
            trace := trace s ++ timer_lookups
                     ++ (if os_GetProcAddress os "ntdll.dll"
                                              "NtQueryTimerResolution"
                            && os_GetProcAddress os "ntdll.dll"
                                                 "NtSetTimerResolution"
                         then [EvNtQueryTimerResolution;
                               EvNtSetTimerResolution
                                 (snd (fst (os_timer_resolution os))) true]
                         else []) |}.
Proof.
  unfold RequestHighPerformance, bind, timer_lookups. simpl.
  destruct (os_GetProcAddress os "ntdll.dll" "NtQueryTimerResolution");
    destruct (os_GetProcAddress os "ntdll.dll" "NtSetTimerResolution");
    simpl; try destruct (os_timer_resolution os) as [[mn mx] cur]; simpl;
    unfold ret, emit; simpl; rewrite <- ?app_assoc; simpl;
    reflexivity.
Qed.

(** The marshalling stage of a process: from the initial state it leaves
    the console flag at its initial value and a trace of marshalling events
    only. *)
Lemma marshalling_from_initial_state (os : World) :
  let o := parse_launch_arguments os (GetEntryInfo os) [] initial_state in
  has_console_attached_ (state_of o) = true /\
  forallb is_marshalling_event (trace (state_of o)) = true.
Proof.
  destruct (parse_launch_arguments_frame os (GetEntryInfo os) [] initial_state)
    as (Hflag & evs & Htr & Hall).
  simpl in *. rewrite Htr. auto.
Qed.

Ltac disjoint_events :=
  let e := fresh "e" in
  intros e; destruct e; simpl; intros; congruence.

Ltac count_events :=
  repeat first [rewrite occurrences_app | rewrite occurrences_cons];
  repeat match goal with
         | H : forallb ?q ?l = true |- context [occurrences ?p ?l] =>
             rewrite (occurrences_disjoint q p l H) by disjoint_events
         end;
  simpl.

(** Whatever the outcome of marshalling, [main] is settled by it. *)
Lemma main_by_marshalling (os : World) :
  let o := parse_launch_arguments os (GetEntryInfo os) [] initial_state in
  (exists args s1, o = Ret (true, args) s1) \/
  state_of (main os) = state_of o.
Proof.
  simpl. unfold main.
  destruct (parse_launch_arguments os (GetEntryInfo os) [] initial_state)
    as [[[|] args] s1|e s1|s1] eqn:Hparse.
  - left. eauto.
  - right. rewrite (Main_marshalling_failed _ _ _ _ Hparse). reflexivity.
  - right. rewrite (Main_marshalling_throws _ _ _ _ Hparse). reflexivity.
  - right. rewrite (Main_marshalling_undefined _ _ _ Hparse). reflexivity.
Qed.

(* ------------------------------------------------------------------ *)
(** ** Properties of the bootstrap sequence *)

(** C1.  When the CPU lacks AVX, no run of the process invokes the entry
    point or negotiates the timer resolution; and once the arguments are
    marshalled, [Main] reports the fatal error as its last action and
    returns -1, which differs from the marshalling failure code 1. *)
Theorem missing_avx_is_fatal (os : World) :
  cpu_has_tAVX os = false ->
  occurrences is_entry_point (trace (state_of (main os))) = 0%nat /\
  occurrences is_timer_event (trace (state_of (main os))) = 0%nat /\
  (forall args s1,
     parse_launch_arguments os (GetEntryInfo os) [] initial_state
     = Ret (true, args) s1 ->
     exists t s',
       main os = Ret (-1) s' /\ -1 <> 1 /\
       trace s' = t ++ [EvFatalError avx_message] /\
       occurrences is_fatal_error (trace s') = 1%nat).
Proof.
  intros Havx.
  destruct (marshalling_from_initial_state os) as [_ Hm]. simpl in Hm.
  assert (Hgate : forall args s1,
     parse_launch_arguments os (GetEntryInfo os) [] initial_state
     = Ret (true, args) s1 ->
     exists cons s',
       main os = Ret (-1) s' /\
       forallb is_console_event cons = true /\
       trace s' = trace s1 ++ cons
                  ++ [EvCoInitializeEx;
                      EvInitializeLogging (name (GetEntryInfo os))]
                  ++ [EvFatalError avx_message]).
  { intros args s1 Hparse.
    destruct (Main_marshalled os _ _ _ Hparse)
      as (s2 & cons & tim & s' & HM & _ & Hs2 & Hcons & _ & _ & _ & _ & Htr).
    rewrite Havx in HM, Htr. exists cons, s'. unfold main.
    rewrite Htr, Hs2, <- app_assoc. auto. }
  assert (Hnone : forall p,
     (forall e, is_marshalling_event e = true -> p e = false) ->
     (forall e, is_console_event e = true -> p e = false) ->
     p EvCoInitializeEx = false ->
     (forall n, p (EvInitializeLogging n) = false) ->
     (forall m, p (EvFatalError m) = false) ->
     occurrences p (trace (state_of (main os))) = 0%nat).
  { intros p Hp1 Hp2 Hp3 Hp4 Hp5.
    destruct (main_by_marshalling os) as [(args & s1 & Hparse)|Heq].
    - destruct (Hgate _ _ Hparse) as (cons & s' & HM & Hcons & Htr).
      rewrite Hparse in Hm. simpl in Hm.
      rewrite HM. simpl. rewrite Htr, !occurrences_app.
      rewrite (occurrences_disjoint _ p _ Hm Hp1).
      rewrite (occurrences_disjoint _ p _ Hcons Hp2).
      unfold occurrences. simpl. rewrite Hp3, Hp4, Hp5. reflexivity.
    - simpl in Heq. rewrite Heq.
      apply (occurrences_disjoint _ p _ Hm Hp1). }
  split; [|split].
  - apply Hnone; try disjoint_events; reflexivity.
  - apply Hnone; try disjoint_events; reflexivity.
  - intros args s1 Hparse.
    destruct (Hgate _ _ Hparse) as (cons & s' & HM & Hcons & Htr).
    rewrite Hparse in Hm. simpl in Hm.
    exists (trace s1 ++ cons
            ++ [EvCoInitializeEx;
                EvInitializeLogging (name (GetEntryInfo os))]), s'.
    split; [exact HM|]. split; [lia|]. split.
    + rewrite Htr, <- !app_assoc. reflexivity.
    + rewrite Htr. count_events. reflexivity.
Qed.

Lemma missing_avx_is_fatal_witness :
  cpu_has_tAVX (with_cpu false sample_world) = false /\
  exists s', main (with_cpu false sample_world) = Ret (-1) s'.
Proof.
  split; [reflexivity|].
  destruct (missing_avx_is_fatal (with_cpu false sample_world) eq_refl)
    as (_ & _ & H).
  destruct (H _ _ eq_refl) as (t & s' & HM & _).
  exists s'. exact HM.
Defined.

(** On the path that reaches the entry point, logging is initialised once
    and shut down once, after the entry point returned and as the last
    action, whatever the entry point returns. *)
Lemma logging_bracketed_around_entry_point (os : World) args s1 :
  parse_launch_arguments os (GetEntryInfo os) [] initial_state
  = Ret (true, args) s1 ->
  cpu_has_tAVX os = true ->
  exists t s',
    main os = Ret (entry_point (GetEntryInfo os) args) s' /\
    trace s' = t ++ [EvEntryPoint args; EvShutdownLogging] /\
    occurrences is_initialize_logging (trace s') = 1%nat /\
    occurrences is_shutdown_logging (trace s') = 1%nat /\
    occurrences is_entry_point (trace s') = 1%nat.
Proof.
  intros Hparse Havx.
  destruct (marshalling_from_initial_state os) as [_ Hm]. simpl in Hm.
  rewrite Hparse in Hm. simpl in Hm.
  destruct (Main_marshalled os _ _ _ Hparse)
    as (s2 & cons & tim & s' & HM & _ & Hs2 & Hcons & _ & Htim & _ & _ & Htr).
  rewrite Havx in HM, Htr. rewrite Hs2 in Htr.
  exists ((trace s1 ++ cons)
          ++ [EvCoInitializeEx; EvInitializeLogging (name (GetEntryInfo os))]
          ++ [EvLogInfo (build_banner (build_version os))] ++ tim), s'.
  split; [exact HM|]. split.
  - rewrite Htr, <- !app_assoc. reflexivity.
  - rewrite Htr. repeat split; count_events; reflexivity.
Qed.

(** X14.  On every path of [Main] that initialises logging, [Main]
    initialises it once.  If the entry point is invoked, [Main] then calls
    [ShutdownLogging] exactly once, after the entry point returned and as
    its last action, whatever the entry point returned; if the capability
    check fails, [Main] returns -1 directly after [FatalError], with no
    call of [ShutdownLogging] of its own. *)
Theorem shutdown_called_after_entry_point_only (os : World) args s1 :
  parse_launch_arguments os (GetEntryInfo os) [] initial_state
  = Ret (true, args) s1 ->
  (cpu_has_tAVX os = true ->
   exists t s',
     main os = Ret (entry_point (GetEntryInfo os) args) s' /\
     trace s' = t ++ [EvEntryPoint args; EvShutdownLogging] /\
     occurrences is_initialize_logging (trace s') = 1%nat /\
     occurrences is_shutdown_logging (trace s') = 1%nat) /\
  (cpu_has_tAVX os = false ->
   exists t s',
     main os = Ret (-1) s' /\
     trace s' = t ++ [EvFatalError avx_message] /\
     occurrences is_initialize_logging (trace s') = 1%nat /\
     occurrences is_shutdown_logging (trace s') = 0%nat).
Proof.
  intros Hparse. split; intros Havx.
  - destruct (logging_bracketed_around_entry_point os _ _ Hparse Havx)
      as (t & s' & HM & Htr & Hinit & Hshut & _).
    exists t, s'. auto.
  - destruct (marshalling_from_initial_state os) as [_ Hm]. simpl in Hm.
    rewrite Hparse in Hm. simpl in Hm.
    destruct (Main_marshalled os _ _ _ Hparse)
      as (s2 & cons & tim & s' & HM & _ & Hs2 & Hcons & _ & _ & _ & _ & Htr).
    rewrite Havx in HM, Htr. rewrite Hs2 in Htr.
    exists ((trace s1 ++ cons)
            ++ [EvCoInitializeEx;
                EvInitializeLogging (name (GetEntryInfo os))]), s'.
    split; [exact HM|]. split.
    + rewrite Htr, <- !app_assoc. reflexivity.
    + rewrite Htr. split; count_events; reflexivity.
Qed.

Lemma shutdown_called_after_entry_point_only_witness :
  (exists s',
     main sample_world = Ret 3 s' /\
     occurrences is_shutdown_logging (trace s') = 1%nat) /\
  (exists s',
     main (with_cpu false sample_world) = Ret (-1) s' /\
     occurrences is_shutdown_logging (trace s') = 0%nat).
Proof.
  split.
  - destruct (proj1 (shutdown_called_after_entry_point_only sample_world
                       _ _ eq_refl) eq_refl)
      as (t & s' & HM & _ & _ & Hshut).
    exists s'. split; [exact HM | exact Hshut].
  - destruct (proj2 (shutdown_called_after_entry_point_only
                       (with_cpu false sample_world) _ _ eq_refl) eq_refl)
      as (t & s' & HM & _ & _ & Hshut).
    exists s'. split; [exact HM | exact Hshut].
Defined.

(** C3 as stated fails: in a process that runs with [enable_console] at
    its default, false, the flag read by [has_console_attached] is true,
    not false, when [Main] returns. *)
Lemma console_flag_true_when_console_disabled :
  enable_console (cvars (state_of (main sample_world))) = false /\
  has_console_attached (state_of (main sample_world))
  = Ret true (state_of (main sample_world)) /\
  has_console_attached_ (state_of (main sample_world)) <> false.
Proof.
  split; [reflexivity|]. split; [reflexivity|]. discriminate.
Qed.

(** C3, amended.  If [enable_console] is false when [Main] tests it, no
    console event happens in the whole run, in particular the flag is never
    written: [has_console_attached] keeps returning the value the global is
    initialised to, which is true. *)
Theorem console_disabled_keeps_initial_flag (os : World) :
  enable_console
    (cvars (state_of (parse_launch_arguments os (GetEntryInfo os) []
                                             initial_state))) = false ->
  occurrences is_console_event (trace (state_of (main os))) = 0%nat /\
  has_console_attached_ (state_of (main os))
  = has_console_attached_ initial_state /\
  has_console_attached (state_of (main os))
  = Ret true (state_of (main os)).
Proof.
  intros Hoff.
  destruct (marshalling_from_initial_state os) as [Hflag Hm].
  simpl in Hflag, Hm.
  assert (H : occurrences is_console_event (trace (state_of (main os)))
              = 0%nat /\
              has_console_attached_ (state_of (main os)) = true).
  { destruct (main_by_marshalling os) as [(args & s1 & Hparse)|Heq].
    - rewrite Hparse in Hoff, Hflag, Hm. simpl in Hoff, Hflag, Hm.
      destruct (Main_marshalled os _ _ _ Hparse)
        as (s2 & cons & tim & s' & HM & Hif & Hs2 & _ & _ & Htim & _
            & Hfl & Htr).
      rewrite Hoff in Hif. destruct Hif as [-> ->].
      unfold main. rewrite HM. simpl. split.
      + rewrite Htr. destruct (cpu_has_tAVX os); count_events; reflexivity.
      + rewrite Hfl. exact Hflag.
    - simpl in Heq. rewrite Heq. split; [|exact Hflag].
      apply (occurrences_disjoint _ _ _ Hm). disjoint_events. }
  destruct H as [H1 H2]. split; [exact H1|]. split; [exact H2|].
  unfold has_console_attached. rewrite H2. reflexivity.
Qed.

Lemma console_disabled_keeps_initial_flag_witness :
  has_console_attached (state_of (main sample_world))
  = Ret true (state_of (main sample_world)).
Proof.
  apply (console_disabled_keeps_initial_flag sample_world). reflexivity.
Defined.

(** C4.  When [CommandLineToArgvW] returns null, [parse_launch_arguments]
    returns false leaving [args] as it was, and [Main] returns 1 having only
    asked the OS for the command line: no console negotiation, no subsystem
    initialisation, no timer negotiation, no entry point. *)
Theorem null_argv_aborts_with_1 (os : World) :
  os_CommandLineToArgvW os = None ->
  (forall ei args s, exists s',
      parse_launch_arguments os ei args s = Ret (false, args) s' /\
      trace s' = trace s ++ [EvGetCommandLineW; EvCommandLineToArgvW]) /\
  exists s',
    main os = Ret 1 s' /\
    wWinMain os = Ret 1 s' /\
    trace s' = [EvGetCommandLineW; EvCommandLineToArgvW] /\
    occurrences is_console_event (trace s') = 0%nat /\
    occurrences is_subsystem_event (trace s') = 0%nat /\
    occurrences is_timer_event (trace s') = 0%nat /\
    occurrences is_entry_point (trace s') = 0%nat.
Proof.
  intros Hnull.
  assert (Hparse : forall ei args s,
    parse_launch_arguments os ei args s
    = Ret (false, args)
          {| has_console_attached_ := has_console_attached_ s;
             cvars := cvars s;
             trace := trace s ++ [EvGetCommandLineW; EvCommandLineToArgvW] |}).
  { intros ei args s. unfold parse_launch_arguments, bind, emit. simpl.
    rewrite Hnull. unfold ret. rewrite <- app_assoc. reflexivity. }
  split.
  - intros ei args s. eexists. split; [apply Hparse | reflexivity].
  - eexists. unfold wWinMain, main.
    rewrite (Main_marshalling_failed os _ _ _ (Hparse _ _ _)).
    repeat split.
Qed.

Lemma null_argv_aborts_with_1_witness :
  exists s', main (with_command_line None sample_world) = Ret 1 s'.
Proof.
  destruct (null_argv_aborts_with_1 (with_command_line None sample_world)
              eq_refl) as (_ & s' & HM & _).
  exists s'. exact HM.
Defined.

(** C7.  On the path that is not fatal (arguments marshalled, AVX present)
    [Main] invokes the entry point exactly once, with the token sequence
    [parse_launch_arguments] produced, and returns the integer the entry
    point returned; so do both OS entry symbols. *)
Theorem entry_point_invoked_once (os : World) args s1 :
  parse_launch_arguments os (GetEntryInfo os) [] initial_state
  = Ret (true, args) s1 ->
  cpu_has_tAVX os = true ->
  exists s',
    main os = Ret (entry_point (GetEntryInfo os) args) s' /\
    wWinMain os = Ret (entry_point (GetEntryInfo os) args) s' /\
    occurrences is_entry_point (trace s') = 1%nat /\
    In (EvEntryPoint args) (trace s').
Proof.
  intros Hparse Havx.
  destruct (logging_bracketed_around_entry_point os _ _ Hparse Havx)
    as (t & s' & HM & Htr & _ & _ & Honce).
  exists s'. repeat split; try assumption.
  rewrite Htr. apply in_or_app. right. left. reflexivity.
Qed.

Lemma entry_point_invoked_once_witness :
  exists s',
    main sample_world = Ret 3 s' /\
    In (EvEntryPoint ["prog.exe"; "--flag"; "value"]%string) (trace s').
Proof.
  destruct (entry_point_invoked_once sample_world _ _ eq_refl eq_refl)
    as (s' & HM & _ & _ & Hin).
  exists s'. split; [exact HM | exact Hin].
Defined.

(* ------------------------------------------------------------------ *)
(** ** The argument marshaller *)

(** The outcome of [parse_launch_arguments] on a command line whose tokens
    the locale can convert. *)
Lemma parse_launch_arguments_convertible (os : World) ei wargv args0 s :
  os_CommandLineToArgvW os = Some wargv ->
  forallb (convertible os) wargv = true ->
  parse_launch_arguments os ei args0 s =
  let args := map (narrow os) wargv in
  let asked := [EvGetCommandLineW; EvCommandLineToArgvW; EvLocalFree] in
  if transparent_options ei then
    Ret (true, args) (marshalled s (cvars s) asked)
  else
    match positional_usage ei, positional_options ei with
    | Some usage, Some options =>
        Ret (true, args)
            (marshalled s (cvar_parse os args usage options (cvars s))
               (asked ++ [EvCvarParseLaunchArguments args usage options]))
    | _, _ => Throw bad_optional_access (marshalled s (cvars s) asked)
    end.
Proof.
  intros Hargv Hconv.
  unfold parse_launch_arguments, bind, emit, marshalled. simpl.
  rewrite Hargv, Nat2Z.id. simpl.
  pose proof (narrow_loop_map os wargv []) as Hloop. simpl in Hloop.
  rewrite Hloop.
  assert (Hpush : forall s0,
    push_loop (map (narrow_arg os) wargv) 0 (List.length wargv) [] s0
    = Ret (map (narrow os) wargv) s0).
  { intros s0. apply (push_loop_convertible os wargv [] [] s0 Hconv). }
  destruct (transparent_options ei); simpl.
  - rewrite Hpush. simpl.
    rewrite <- !app_assoc. reflexivity.
  - destruct (positional_usage ei) as [usage|]; simpl;
      [|rewrite <- !app_assoc; reflexivity].
    destruct (positional_options ei) as [options|]; simpl;
      [|rewrite <- !app_assoc; reflexivity].
    unfold cvar_ParseLaunchArguments, bind.
    rewrite firstn_all2 by (rewrite length_map; lia).
    rewrite (read_argv_convertible os wargv _ Hconv).
    unfold emit, get_cvars, set_cvars. simpl.
    rewrite Hpush. simpl.
    rewrite <- !app_assoc. reflexivity.
Qed.

(** The two [value()] calls are evaluated before the option parser is
    entered, whatever the tokens are. *)
Lemma parse_launch_arguments_throws (os : World) ei wargv args0 s :
  os_CommandLineToArgvW os = Some wargv ->
  transparent_options ei = false ->
  positional_usage ei = None \/ positional_options ei = None ->
  parse_launch_arguments os ei args0 s =
  Throw bad_optional_access
        (marshalled s (cvars s)
           [EvGetCommandLineW; EvCommandLineToArgvW; EvLocalFree]).
Proof.
  intros Hargv Htr Hnone.
  unfold parse_launch_arguments, bind, emit, marshalled. simpl.
  rewrite Hargv, Htr. simpl. rewrite narrow_loop_all. simpl.
  destruct (positional_usage ei) as [usage|]; simpl.
  - destruct Hnone as [Hnone|Hnone]; [discriminate|]. rewrite Hnone. simpl.
    rewrite <- !app_assoc. reflexivity.
  - rewrite <- !app_assoc. reflexivity.
Qed.



(** C6.  If attaching to the parent's console fails, or [SHELL] is absent
    from the environment, [AttachConsole] returns normally having recorded
    the flag as false and without calling [AllocConsole]; absence of
    [SHELL] makes [has_shell_environment_variable] return false; and a
    process whose arguments were marshalled with [enable_console] set then
    runs [Main] to its return, with the flag false and no console
    allocated. *)
Theorem headless_fallback (os : World) :
  os_AttachConsole_parent os = false \/ os_environment os "SHELL" = None ->
  (forall s, exists s' evs,
      AttachConsole os s = Ret tt s' /\
      has_console_attached s' = Ret false s' /\
      trace s' = trace s ++ evs ++ [EvSetConsoleAttached false] /\
      occurrences is_alloc_console evs = 0%nat) /\
  (os_environment os "SHELL" = None ->
   forall s, exists s', has_shell_environment_variable os s = Ret false s') /\
  (forall args s1,
      parse_launch_arguments os (GetEntryInfo os) [] initial_state
      = Ret (true, args) s1 ->
      enable_console (cvars s1) = true ->
      exists r s',
        main os = Ret r s' /\
        has_console_attached_ s' = false /\
        occurrences is_alloc_console (trace s') = 0%nat).
Proof.
  intros Hheadless. split; [|split].
  - intros s. rewrite (AttachConsole_headless os s Hheadless).
    eexists. exists (EvAttachConsoleParent
                     :: (if os_AttachConsole_parent os
                         then [EvGetenv "SHELL"] else [])).
    split; [reflexivity|]. split; [reflexivity|]. split.
    + simpl. reflexivity.
    + destruct (os_AttachConsole_parent os); reflexivity.
  - intros Habsent s. rewrite has_shell_environment_variable_eq, Habsent.
    eauto.
  - intros args s1 Hparse Hon.
    destruct (marshalling_from_initial_state os) as [_ Hm]. simpl in Hm.
    rewrite Hparse in Hm. simpl in Hm.
    destruct (Main_marshalled os _ _ _ Hparse)
      as (s2 & cons & tim & s' & HM & Hif & Hs2 & _ & _ & Htim & _
          & Hfl & Htr).
    rewrite Hon, (AttachConsole_headless os s1 Hheadless) in Hif.
    inversion Hif as [Heq]. clear Hif.
    eexists. exists s'. split; [exact HM|]. split.
    + rewrite Hfl, <- Heq. reflexivity.
    + rewrite Htr, <- Heq. simpl.
      destruct (cpu_has_tAVX os); destruct (os_AttachConsole_parent os);
        count_events; reflexivity.
Qed.

Lemma headless_fallback_witness :
  exists r s',
    main (with_environment (fun _ => None) true console_world) = Ret r s' /\
    has_console_attached_ s' = false.
Proof.
  destruct (headless_fallback
              (with_environment (fun _ => None) true console_world)
              (or_intror eq_refl)) as (_ & _ & H).
  destruct (H _ _ eq_refl eq_refl) as (r & s' & HM & Hflag & _).
  exists r, s'. split; [exact HM | exact Hflag].
Defined.

Lemma wcstombs_bytes_no_room (os : World) (tok : wstr) :
  wcstombs_bytes os tok 0 = [].
Proof.
  induction tok as [|wc tok IH]; [reflexivity|].
  simpl. destruct (crt_wctomb os wc) as [[|c mb]|]; simpl; auto.
Qed.

(** C8.  For a token with a character the locale cannot convert, the
    measuring call returns [(size_t)-1], the buffer size [len + 1] wraps to
    zero, the converting call stores nothing, not even a terminator, and
    reading the argument back has no defined result. *)
Theorem unconvertible_token_gets_empty_buffer (os : World) (tok : wstr) :
  wcstombs_len os tok = None ->
  wcstombs_measure os tok = SIZE_MAX /\
  size_add (wcstombs_measure os tok) 1 = 0 /\
  narrow_arg os tok = [] /\
  forall s, std_string (narrow_arg os tok) s = Undefined s.
Proof.
  intros Hbad.
  assert (Hm : wcstombs_measure os tok = SIZE_MAX).
  { unfold wcstombs_measure. rewrite Hbad. reflexivity. }
  assert (Hbuf : narrow_arg os tok = []).
  { unfold narrow_arg, narrow_arg_buffer, narrow_arg_size, wcstombs.
    rewrite Hm.
    change (size_add SIZE_MAX 1) with 0. simpl.
    rewrite wcstombs_bytes_no_room. reflexivity. }
  split; [exact Hm|]. split; [rewrite Hm; reflexivity|].
  split; [exact Hbuf|].
  intros s. rewrite Hbuf. reflexivity.
Qed.

Lemma unconvertible_token_gets_empty_buffer_witness :
  narrow_arg kana_world [12354] = [] /\
  exists s', main kana_world = Undefined s'.
Proof.
  destruct (unconvertible_token_gets_empty_buffer kana_world [12354] eq_refl)
    as (_ & _ & Hbuf & _).
  split; [exact Hbuf|].
  eexists. cbv. reflexivity.
Defined.

(** C9.  [win32_high_freq] defaults to true; when it is false as [Main]
    tests it, the run has no timer event.  [RequestHighPerformance] always
    returns: it looks both kernel functions up, and only if both are found
    queries the resolutions and then requests the maximum one it was
    told. *)
Theorem timer_negotiation_is_best_effort (os : World) :
  win32_high_freq default_cvars = true /\
  (forall args s1,
      parse_launch_arguments os (GetEntryInfo os) [] initial_state
      = Ret (true, args) s1 ->
      win32_high_freq (cvars s1) = false ->
      occurrences is_timer_event (trace (state_of (main os))) = 0%nat) /\
  (forall s, exists s',
      RequestHighPerformance os s = Ret tt s' /\
      has_console_attached_ s' = has_console_attached_ s /\
      cvars s' = cvars s /\
      trace s' =
        trace s ++ timer_lookups
        ++ (if os_GetProcAddress os "ntdll.dll" "NtQueryTimerResolution"
               && os_GetProcAddress os "ntdll.dll" "NtSetTimerResolution"
            then [EvNtQueryTimerResolution;
                  EvNtSetTimerResolution
                    (snd (fst (os_timer_resolution os))) true]
            else [])).
Proof.
  split; [reflexivity|]. split.
  - intros args s1 Hparse Hoff.
    destruct (marshalling_from_initial_state os) as [_ Hm]. simpl in Hm.
    rewrite Hparse in Hm. simpl in Hm.
    destruct (Main_marshalled os _ _ _ Hparse)
      as (s2 & cons & tim & s' & HM & _ & Hs2 & Hcons & Htim & _ & _
          & _ & Htr).
    unfold main. rewrite HM. simpl. rewrite Htr, Hs2, (Htim Hoff).
    destruct (cpu_has_tAVX os); count_events; reflexivity.
  - intros s. rewrite RequestHighPerformance_eq. eexists.
    split; [reflexivity|]. simpl. auto.
Qed.

Lemma timer_negotiation_is_best_effort_witness :
  occurrences is_timer_event (trace (state_of (main quiet_world))) = 0%nat /\
  exists s',
    RequestHighPerformance quiet_world initial_state = Ret tt s' /\
    trace s' = timer_lookups.
Proof.
  destruct (timer_negotiation_is_best_effort quiet_world)
    as (_ & Hgate & Hrun).
  split.
  - exact (Hgate _ _ eq_refl eq_refl).
  - destruct (Hrun initial_state) as (s' & Hret & _ & _ & Htr).
    exists s'. split; [exact Hret | exact Htr].
Defined.

(** C10.  With [transparent_options] false, [parse_launch_arguments]
    dereferences both optionals as soon as the OS delivered the tokens: if
    either is empty it leaves by [bad_optional_access], which [Main] does
    not catch, so it returns true only if both are populated.  With
    [transparent_options] true it never throws, performs no option-parsing
    event, leaves the configuration alone, and its outcome does not depend
    on the optionals. *)
Theorem positional_optionals_precondition (os : World) (ei : EntryInfo) :
  (transparent_options ei = false ->
   forall wargv, os_CommandLineToArgvW os = Some wargv ->
   positional_usage ei = None \/ positional_options ei = None ->
   forall args0 s, exists s',
     parse_launch_arguments os ei args0 s = Throw bad_optional_access s') /\
  (transparent_options ei = false ->
   forall args0 s args s',
     parse_launch_arguments os ei args0 s = Ret (true, args) s' ->
     positional_usage ei <> None /\ positional_options ei <> None) /\
  (transparent_options (GetEntryInfo os) = false ->
   forall wargv, os_CommandLineToArgvW os = Some wargv ->
   positional_usage (GetEntryInfo os) = None \/
   positional_options (GetEntryInfo os) = None ->
   exists s',
     main os = Throw bad_optional_access s' /\
     occurrences is_entry_point (trace s') = 0%nat) /\
  (transparent_options ei = true ->
   forall args0 s,
     let o := parse_launch_arguments os ei args0 s in
     throws o = false /\
     cvars (state_of o) = cvars s /\
     occurrences is_cvar_parse (trace (state_of o))
     = occurrences is_cvar_parse (trace s) /\
     forall usage options,
       parse_launch_arguments os
         {| name := name ei; transparent_options := true;
            positional_usage := usage; positional_options := options;
            entry_point := entry_point ei |} args0 s = o).
Proof.
  split; [|split; [|split]].
  - intros Htr wargv Hargv Hnone args0 s.
    rewrite (parse_launch_arguments_throws os ei wargv args0 s Hargv Htr Hnone).
    eauto.
  - intros Htr args0 s args s' Hret.
    destruct (os_CommandLineToArgvW os) as [wargv|] eqn:Hargv.
    + destruct (positional_usage ei) as [usage|] eqn:Hu;
        [destruct (positional_options ei) as [options|] eqn:Ho|].
      * split; discriminate.
      * rewrite (parse_launch_arguments_throws os ei wargv args0 s Hargv Htr)
          in Hret by auto. discriminate.
      * rewrite (parse_launch_arguments_throws os ei wargv args0 s Hargv Htr)
          in Hret by auto. discriminate.
    + unfold parse_launch_arguments, bind, emit in Hret. simpl in Hret.
      rewrite Hargv in Hret. discriminate.
  - intros Htr wargv Hargv Hnone. eexists. unfold main.
    rewrite (Main_marshalling_throws os _ _ _
               (parse_launch_arguments_throws os _ wargv [] initial_state
                  Hargv Htr Hnone)).
    split; reflexivity.
  - intros Htr args0 s.
    unfold parse_launch_arguments, bind, emit. simpl. rewrite Htr. simpl.
    destruct (os_CommandLineToArgvW os) as [wargv|]; simpl.
    2:{ repeat split. count_events. rewrite !Nat.add_0_r. reflexivity. }
    rewrite !narrow_loop_all. simpl.
    match goal with |- context [push_loop ?argv 0 ?todo [] ?s0] =>
      destruct (push_loop_frame argv todo 0%nat [] s0) as [Hs Ht];
      destruct (push_loop argv 0 todo [] s0) as [a s1| |s1]
    end; simpl in *; try discriminate; subst s1; simpl;
      repeat split; count_events; rewrite !Nat.add_0_r; reflexivity.
Qed.

Lemma positional_optionals_precondition_witness :
  (exists s',
     main (with_entry bare_entry sample_world)
     = Throw bad_optional_access s') /\
  throws (parse_launch_arguments sample_world sample_entry [] initial_state)
  = false.
Proof.
  destruct (positional_optionals_precondition
              (with_entry bare_entry sample_world) bare_entry)
    as (_ & _ & Habort & _).
  destruct (positional_optionals_precondition sample_world sample_entry)
    as (_ & _ & _ & Hbypass).
  split.
  - destruct (Habort eq_refl _ eq_refl (or_intror eq_refl))
      as (s' & HM & _).
    exists s'. exact HM.
  - exact (proj1 (Hbypass eq_refl [] initial_state)).
Defined.

(* ------------------------------------------------------------------ *)
(** ** The console negotiator in full *)

Lemma AttachConsole_attached (os : World) (s : State) :
  os_AttachConsole_parent os = true ->
  shell_defined os = true ->
  AttachConsole os s =
  Ret tt {| has_console_attached_ := true;
            cvars := cvars s;
            trace := trace s
                     ++ [EvAttachConsoleParent; EvGetenv "SHELL";
                         EvAllocConsole; EvSetConsoleAttached true]
                     ++ rebind_events STD_OUTPUT_HANDLE stdout
                     ++ rebind_events STD_ERROR_HANDLE stderr |}.
Proof.
  intros Hattach Hshell. unfold AttachConsole, bind. simpl.
  rewrite Hattach. simpl.
  rewrite has_shell_environment_variable_eq.
  unfold shell_defined in Hshell.
  destruct (os_environment os "SHELL"); [|discriminate]. simpl.
  unfold rebind, bind, emit, ret. simpl.
  rewrite <- !app_assoc. reflexivity.
Qed.

Lemma shell_undefined (os : World) :
  shell_defined os = false -> os_environment os "SHELL" = None.
Proof.
  unfold shell_defined. destruct (os_environment os "SHELL");
    [discriminate | reflexivity].
Qed.

(** The flag [AttachConsole] leaves. *)
Lemma AttachConsole_flag (os : World) (s s' : State) :
  AttachConsole os s = Ret tt s' ->
  has_console_attached_ s'
  = os_AttachConsole_parent os && shell_defined os.
Proof.
  intros Hrun.
  destruct (os_AttachConsole_parent os) eqn:Hattach;
    [destruct (shell_defined os) eqn:Hshell|].
  - rewrite (AttachConsole_attached os s Hattach Hshell) in Hrun.
    inversion Hrun. reflexivity.
  - rewrite (AttachConsole_headless os s
               (or_intror (shell_undefined os Hshell))) in Hrun.
    inversion Hrun. reflexivity.
  - rewrite (AttachConsole_headless os s (or_introl Hattach)) in Hrun.
    inversion Hrun. reflexivity.
Qed.

(** X1.  When the parent's console is attached and [SHELL] is defined,
    [AttachConsole] allocates a console exactly once, records the flag as
    true, and then rebinds standard output and, after it, standard error:
    each through its OS handle, opened in text mode for writing, and
    reopened on [CONOUT$]. *)
Theorem console_allocated_and_streams_rebound (os : World) (s : State) :
  os_AttachConsole_parent os = true ->
  shell_defined os = true ->
  exists s',
    AttachConsole os s = Ret tt s' /\
    has_console_attached s' = Ret true s' /\
    cvars s' = cvars s /\
    trace s' =
      trace s
      ++ [EvAttachConsoleParent; EvGetenv "SHELL"; EvAllocConsole;
          EvSetConsoleAttached true;
          EvGetStdHandle STD_OUTPUT_HANDLE; EvOpenOsfhandle true;
          EvFdopen "w"; EvFreopen "CONOUT$" "w" stdout;
          EvGetStdHandle STD_ERROR_HANDLE; EvOpenOsfhandle true;
          EvFdopen "w"; EvFreopen "CONOUT$" "w" stderr] /\
    occurrences is_alloc_console (trace s')
    = S (occurrences is_alloc_console (trace s)).
Proof.
  intros Hattach Hshell.
  rewrite (AttachConsole_attached os s Hattach Hshell).
  eexists. split; [reflexivity|]. split; [reflexivity|].
  split; [reflexivity|]. simpl. split; [reflexivity|].
  count_events.
  change (occurrences is_alloc_console
            (rebind_events STD_ERROR_HANDLE stderr)) with 0%nat.
  lia.
Qed.

Lemma console_allocated_and_streams_rebound_witness :
  exists s',
    AttachConsole console_world initial_state = Ret tt s' /\
    has_console_attached s' = Ret true s'.
Proof.
  destruct (console_allocated_and_streams_rebound console_world
              initial_state eq_refl eq_refl) as (s' & Hrun & Hflag & _).
  exists s'. split; [exact Hrun | exact Hflag].
Defined.

(** X2.  Every call of [AttachConsole] returns, writes the flag exactly
    once, and the value written is: parent console attached and [SHELL]
    defined.  A console is allocated exactly when that value is true, and
    the configuration variables are left alone. *)
Theorem console_flag_written_once (os : World) (s : State) :
  exists s' evs,
    AttachConsole os s = Ret tt s' /\
    trace s' = trace s ++ evs /\
    cvars s' = cvars s /\
    has_console_attached_ s'
    = os_AttachConsole_parent os && shell_defined os /\
    filter is_flag_write evs
    = [EvSetConsoleAttached (has_console_attached_ s')] /\
    occurrences is_alloc_console evs
    = (if has_console_attached_ s' then 1 else 0)%nat.
Proof.
  destruct (os_AttachConsole_parent os) eqn:Hattach;
    [destruct (shell_defined os) eqn:Hshell|].
  - rewrite (AttachConsole_attached os s Hattach Hshell).
    eexists. eexists. split; [reflexivity|]. simpl.
    split; [reflexivity|]. repeat split.
  - rewrite (AttachConsole_headless os s
               (or_intror (shell_undefined os Hshell))).
    rewrite Hattach.
    eexists. eexists. split; [reflexivity|]. simpl.
    split; [reflexivity|]. repeat split.
  - rewrite (AttachConsole_headless os s (or_introl Hattach)).
    rewrite Hattach.
    eexists. eexists. split; [reflexivity|]. simpl.
    split; [reflexivity|]. repeat split.
Qed.

(** X3.  [has_shell_environment_variable] returns true exactly when the
    environment defines [SHELL], be it with an empty value (the measured
    size counts the terminator); it only reads the environment. *)
Theorem shell_variable_detected_iff_defined (os : World) (s : State) :
  exists b s',
    has_shell_environment_variable os s = Ret b s' /\
    (b = true <-> os_environment os "SHELL" <> None) /\
    has_console_attached_ s' = has_console_attached_ s /\
    cvars s' = cvars s /\
    trace s' = trace s ++ [EvGetenv "SHELL"].
Proof.
  rewrite has_shell_environment_variable_eq.
  eexists. eexists. split; [reflexivity|]. simpl.
  repeat split; destruct (os_environment os "SHELL");
    congruence.
Qed.

(* ------------------------------------------------------------------ *)
(** ** The conversion loop in full *)

(** X4.  For every token, convertible or not, the converting call stores
    inside the buffer [alloca] returned for it only: the turn of the loop
    is defined and leaves the buffer with its size unchanged, and the whole
    conversion loop is defined for every token array, with one buffer per
    token. *)
Theorem conversion_stays_in_buffer (os : World) :
  (forall tok s,
      narrow_turn os tok s = Ret (narrow_arg os tok) s /\
      wcstombs_in_bounds os (narrow_arg_buffer os tok) tok
                         (narrow_arg_size os tok) = true /\
      List.length (narrow_arg os tok)
      = List.length (narrow_arg_buffer os tok)) /\
  (forall wargv s,
      exists argv,
        narrow_loop os wargv 0 (List.length wargv) s = Ret argv s /\
        List.length argv = List.length wargv).
Proof.
  split.
  - intros tok s.
    pose proof (narrow_turn_in_bounds os tok s) as Hturn.
    assert (Hin : wcstombs_in_bounds os (narrow_arg_buffer os tok) tok
                                     (narrow_arg_size os tok) = true).
    { unfold narrow_turn in Hturn.
      destruct (wcstombs_in_bounds os (narrow_arg_buffer os tok) tok
                                   (narrow_arg_size os tok));
        [reflexivity | discriminate]. }
    split; [exact Hturn|]. split; [exact Hin|].
    unfold wcstombs_in_bounds in Hin. apply Nat.leb_le in Hin.
    unfold narrow_arg, wcstombs.
    rewrite length_app, length_map, length_skipn. lia.
  - intros wargv s. exists (map (narrow_arg os) wargv).
    split; [apply (narrow_loop_map os wargv [] s) | apply length_map].
Qed.

(** X5.  For a token the locale can convert, the measured length is the
    length of its whole multibyte form, the buffer ends up holding that form
    followed by the terminator and nothing indeterminate, and the string
    built from it is the narrow token. *)
Theorem convertible_token_converted_whole (os : World) (tok : wstr) :
  convertible os tok = true ->
  wcstombs_measure os tok = Z.of_nat (List.length (multibyte os tok)) /\
  narrow_arg os tok = map Some (multibyte os tok ++ [NUL]) /\
  (forall s, std_string (narrow_arg os tok) s = Ret (narrow os tok) s) /\
  String.length (narrow os tok) = List.length (multibyte os tok).
Proof.
  intros Hconv.
  destruct (narrow_arg_convertible os tok Hconv) as [Hm Hbuf].
  split; [exact Hm|]. split; [exact Hbuf|]. split.
  - intros s. unfold std_string.
    rewrite (c_str_narrow_arg os tok Hconv). reflexivity.
  - unfold narrow. clear Hm Hbuf.
    induction (multibyte os tok) as [|c l IH];
      [reflexivity | simpl; rewrite IH; reflexivity].
Qed.

Lemma convertible_token_converted_whole_witness :
  narrow_arg sample_world (wide "value")
  = map Some (multibyte sample_world (wide "value") ++ [NUL]).
Proof.
  exact (proj1 (proj2 (convertible_token_converted_whole sample_world
                         (wide "value") eq_refl))).
Defined.

(** Under the "C" locale the narrow form of a widened string is the string
    itself. *)
Lemma multibyte_wide (os : World) (str : string) :
  crt_wctomb os = c_locale ->
  forallb (fun c => negb (Ascii.eqb c NUL)) (list_ascii_of_string str) = true ->
  multibyte os (wide str) = list_ascii_of_string str /\
  forallb (convertible_char os) (wide str) = true.
Proof.
  intros Hloc. unfold wide.
  induction (list_ascii_of_string str) as [|c l IH]; intros Hplain;
    [split; reflexivity|].
  simpl in Hplain. apply andb_true_iff in Hplain as [Hc Hl].
  destruct (IH Hl) as [IH1 IH2].
  assert (Hwc : c_locale (Z.of_nat (nat_of_ascii c)) = Some [c]).
  { unfold c_locale.
    pose proof (nat_ascii_bounded c) as Hb.
    assert (Hpos : (0 < nat_of_ascii c)%nat).
    { destruct (nat_of_ascii c) eqn:Hn; [|lia].
      assert (Hz : c = NUL).
      { rewrite <- (ascii_nat_embedding c), Hn. reflexivity. }
      rewrite Hz in Hc. discriminate. }
    replace (0 <? Z.of_nat (nat_of_ascii c)) with true
      by (symmetry; apply Z.ltb_lt; lia).
    replace (Z.of_nat (nat_of_ascii c) <? 256) with true
      by (symmetry; apply Z.ltb_lt; lia).
    simpl. rewrite Nat2Z.id, ascii_nat_embedding. reflexivity. }
  split.
  - rewrite map_cons, multibyte_cons, Hloc, Hwc, IH1. reflexivity.
  - simpl. unfold convertible_char at 1. rewrite Hloc, Hwc. simpl.
    rewrite Hc, IH2. reflexivity.
Qed.

Lemma string_of_bytes_list (str : string) :
  string_of_bytes (list_ascii_of_string str) = str.
Proof.
  induction str as [|c str IH]; [reflexivity|].
  simpl. rewrite IH. reflexivity.
Qed.

Lemma length_list_ascii (str : string) :
  List.length (list_ascii_of_string str) = String.length str.
Proof.
  induction str as [|c str IH]; [reflexivity|].
  simpl. rewrite IH. reflexivity.
Qed.

Lemma narrow_wide (os : World) (str : string) :
  crt_wctomb os = c_locale ->
  plain str = true ->
  convertible os (wide str) = true /\ narrow os (wide str) = str.
Proof.
  intros Hloc Hplain. unfold plain in Hplain.
  apply andb_true_iff in Hplain as [Hnul Hlen].
  destruct (multibyte_wide os str Hloc Hnul) as [Hmb Hconv].
  split.
  - unfold convertible. rewrite Hconv, Hmb, length_list_ascii, Hlen.
    reflexivity.
  - unfold narrow. rewrite Hmb. apply string_of_bytes_list.
Qed.

Lemma map_narrow_wide (os : World) (strs : list string) :
  crt_wctomb os = c_locale ->
  forallb plain strs = true ->
  forallb (convertible os) (map wide strs) = true /\
  map (narrow os) (map wide strs) = strs.
Proof.
  intros Hloc. induction strs as [|str strs IH]; intros Hplain;
    [split; reflexivity|].
  simpl in Hplain. apply andb_true_iff in Hplain as [Hs Hl].
  destruct (narrow_wide os str Hloc Hs) as [Hc Hn].
  destruct (IH Hl) as [IH1 IH2].
  simpl. rewrite Hc, Hn, IH1, IH2. split; reflexivity.
Qed.

(** X6.  Under the "C" locale, a command line whose tokens are the wide
    forms of strings without [NUL] comes out of [parse_launch_arguments],
    with options transparent, as exactly those strings in the same order,
    after the three OS calls and nothing else. *)
Theorem c_locale_tokens_come_back (os : World) (ei : EntryInfo)
    (strs : list string) :
  crt_wctomb os = c_locale ->
  os_CommandLineToArgvW os = Some (map wide strs) ->
  forallb plain strs = true ->
  transparent_options ei = true ->
  forall args0 s,
    parse_launch_arguments os ei args0 s
    = Ret (true, strs)
          (marshalled s (cvars s)
             [EvGetCommandLineW; EvCommandLineToArgvW; EvLocalFree]).
Proof.
  intros Hloc Hargv Hplain Htr args0 s.
  destruct (map_narrow_wide os strs Hloc Hplain) as [Hconv Hback].
  rewrite (parse_launch_arguments_convertible os ei _ args0 s Hargv Hconv).
  simpl. rewrite Htr, Hback. reflexivity.
Qed.

Lemma c_locale_tokens_come_back_witness :
  exists s',
    parse_launch_arguments sample_world sample_entry [] initial_state
    = Ret (true, ["prog.exe"; "--flag"; "value"]%string) s'.
Proof.
  eexists.
  exact (c_locale_tokens_come_back sample_world sample_entry
           ["prog.exe"; "--flag"; "value"]%string
           eq_refl eq_refl eq_refl eq_refl [] initial_state).
Defined.

(* ------------------------------------------------------------------ *)
(** ** The marshaller and the sequencer in full *)

(** X7.  Whatever its outcome (returning, throwing from the optionals, or
    undefined), [parse_launch_arguments] never touches the console flag,
    performs marshalling events only, and frees the OS token array exactly
    once if it received one and never otherwise; the array is freed before
    the optionals are dereferenced. *)
Theorem token_array_freed_once (os : World) (ei : EntryInfo)
    (args0 : list string) (s : State) :
  let o := parse_launch_arguments os ei args0 s in
  has_console_attached_ (state_of o) = has_console_attached_ s /\
  exists evs,
    trace (state_of o) = trace s ++ evs /\
    forallb is_marshalling_event evs = true /\
    occurrences is_local_free evs
    = match os_CommandLineToArgvW os with
      | Some _ => 1%nat
      | None => 0%nat
      end /\
    (throws o = true ->
     evs = [EvGetCommandLineW; EvCommandLineToArgvW; EvLocalFree]).
Proof.
  unfold parse_launch_arguments, bind, emit. simpl.
  destruct (os_CommandLineToArgvW os) as [wargv|]; simpl.
  2:{ split; [reflexivity|]. rewrite <- app_assoc.
      eexists; split; [reflexivity|]. repeat split; try discriminate. }
  rewrite narrow_loop_all. simpl.
  set (todo := Z.to_nat (Z.of_nat (List.length wargv))).
  set (argv := map (narrow_arg os) wargv).
  destruct (transparent_options ei); simpl.
  - match goal with |- context [push_loop argv 0 todo [] ?s0] =>
      destruct (push_loop_frame argv todo 0%nat [] s0) as [Hs Ht];
      destruct (push_loop argv 0 todo [] s0) as [a s1| |s1]
    end; simpl in *; try discriminate; subst s1; simpl;
      (split; [reflexivity|]); rewrite <- !app_assoc;
      eexists; (split; [reflexivity|]); repeat split; try discriminate.
  - unfold value.
    destruct (positional_usage ei) as [usage|]; simpl.
    2:{ split; [reflexivity|]. rewrite <- !app_assoc.
        eexists; split; [reflexivity|]. repeat split. }
    destruct (positional_options ei) as [options|]; simpl.
    2:{ split; [reflexivity|]. rewrite <- !app_assoc.
        eexists; split; [reflexivity|]. repeat split. }
    unfold cvar_ParseLaunchArguments, bind, emit, get_cvars, set_cvars.
    match goal with |- context [read_argv ?l ?s0] =>
      destruct (read_argv_frame l s0) as [Hs Ht];
      destruct (read_argv l s0) as [strs s1| |s1]
    end; simpl in *; try discriminate; subst s1; simpl.
    2:{ split; [reflexivity|]. rewrite <- !app_assoc.
        eexists; split; [reflexivity|]. repeat split; try discriminate. }
    match goal with |- context [push_loop argv 0 todo [] ?s0] =>
      destruct (push_loop_frame argv todo 0%nat [] s0) as [Hs Ht'];
      destruct (push_loop argv 0 todo [] s0) as [a s1| |s1]
    end; simpl in *; try discriminate; subst s1; simpl;
      (split; [reflexivity|]); rewrite <- !app_assoc;
      eexists; (split; [reflexivity|]); repeat split; try discriminate.
Qed.

Lemma token_array_freed_once_witness :
  exists evs,
    trace (state_of (parse_launch_arguments sample_world bare_entry []
                                            initial_state))
    = trace initial_state ++ evs /\
    evs = [EvGetCommandLineW; EvCommandLineToArgvW; EvLocalFree].
Proof.
  destruct (token_array_freed_once sample_world bare_entry [] initial_state)
    as (_ & evs & Htr & _ & _ & Hthrow).
  exists evs. split; [exact Htr | exact (Hthrow eq_refl)].
Defined.

Lemma parse_launch_arguments_result (os : World) ei args0 s ok args s' :
  parse_launch_arguments os ei args0 s = Ret (ok, args) s' ->
  ok = match os_CommandLineToArgvW os with Some _ => true | None => false end.
Proof.
  unfold parse_launch_arguments, bind. simpl. intros Hret.
  destruct (os_CommandLineToArgvW os) as [wargv|].
  - rewrite narrow_loop_all in Hret. simpl in Hret.
    match type of Hret with
    | match ?c with _ => _ end = _ =>
        destruct c as [u s0|e s0|s0]; try discriminate
    end.
    match type of Hret with
    | match ?c with _ => _ end = _ =>
        destruct c as [a s2|e s2|s2]; try discriminate
    end.
    inversion Hret. reflexivity.
  - inversion Hret. reflexivity.
Qed.

(** X8.  When [Main] returns, its value is 1 with the command line
    refused by the OS, or -1 on a CPU without AVX, or, on a CPU with AVX,
    the value of the entry point on the arguments of the one entry-point
    event of the run. *)
Theorem exit_code_cases (os : World) (r : Z) (s' : State) :
  main os = Ret r s' ->
  (os_CommandLineToArgvW os = None /\ r = 1) \/
  (os_CommandLineToArgvW os <> None /\ cpu_has_tAVX os = false /\ r = -1) \/
  (os_CommandLineToArgvW os <> None /\ cpu_has_tAVX os = true /\
   exists args,
     r = entry_point (GetEntryInfo os) args /\
     filter is_entry_point (trace s') = [EvEntryPoint args]).
Proof.
  unfold main. intros Hmain.
  destruct (parse_launch_arguments os (GetEntryInfo os) [] initial_state)
    as [[ok args] s1|e s1|s1] eqn:Hparse.
  - pose proof (parse_launch_arguments_result os _ _ _ _ _ _ Hparse) as Hok.
    destruct (os_CommandLineToArgvW os) as [wargv|]; subst ok.
    + right.
      destruct (marshalling_from_initial_state os) as [_ Hm]. simpl in Hm.
      rewrite Hparse in Hm. simpl in Hm.
      destruct (Main_marshalled os _ _ _ Hparse)
        as (s2 & cons & tim & s'' & HM & _ & Hs2 & Hcons & _ & Htim & _
            & _ & Htr).
      rewrite HM in Hmain. inversion Hmain; subst s''. clear Hmain.
      destruct (cpu_has_tAVX os).
      * right. split; [discriminate|]. split; [reflexivity|].
        exists args. split; [reflexivity|].
        rewrite Htr, Hs2, !filter_app.
        assert (Hnone : forall q l,
          forallb q l = true ->
          (forall e, q e = true -> is_entry_point e = false) ->
          filter is_entry_point l = []).
        { intros q l Hq Hdis.
          pose proof (occurrences_disjoint q is_entry_point l Hq Hdis)
            as Hzero.
          unfold occurrences in Hzero.
          destruct (filter is_entry_point l); [reflexivity|discriminate]. }
        rewrite (Hnone _ _ Hm) by disjoint_events.
        rewrite (Hnone _ _ Hcons) by disjoint_events.
        rewrite (Hnone _ _ Htim) by disjoint_events.
        reflexivity.
      * left. split; [discriminate|]. split; reflexivity.
    + left. rewrite (Main_marshalling_failed os _ _ _ Hparse) in Hmain.
      inversion Hmain. split; reflexivity.
  - rewrite (Main_marshalling_throws os _ _ _ Hparse) in Hmain. discriminate.
  - rewrite (Main_marshalling_undefined os _ _ Hparse) in Hmain. discriminate.
Qed.

Lemma exit_code_cases_witness :
  exists args,
    3 = entry_point (GetEntryInfo sample_world) args /\
    filter is_entry_point
      (trace (state_of (main sample_world))) = [EvEntryPoint args].
Proof.
  destruct (exit_code_cases sample_world 3 (state_of (main sample_world))
              eq_refl) as [[Hnull _]|[(_ & Havx & _)|(_ & _ & H)]].
  - discriminate Hnull.
  - discriminate Havx.
  - exact H.
Defined.

(** X9.  In a run whose arguments were marshalled, the console flag with
    which [Main] returns is true if [enable_console] was off, and otherwise
    says whether the parent console was attached and [SHELL] defined; the
    configuration is the one the marshaller left. *)
Theorem console_state_after_bootstrap (os : World) args s1 :
  parse_launch_arguments os (GetEntryInfo os) [] initial_state
  = Ret (true, args) s1 ->
  exists r s',
    main os = Ret r s' /\
    has_console_attached_ s'
    = (if enable_console (cvars s1)
       then os_AttachConsole_parent os && shell_defined os
       else true) /\
    cvars s' = cvars s1.
Proof.
  intros Hparse.
  destruct (marshalling_from_initial_state os) as [Hflag _].
  simpl in Hflag. rewrite Hparse in Hflag. simpl in Hflag.
  destruct (Main_marshalled os _ _ _ Hparse)
    as (s2 & cons & tim & s' & HM & Hif & _ & _ & _ & _ & Hcv & Hfl & _).
  eexists. exists s'. split; [exact HM|]. split; [|exact Hcv].
  rewrite Hfl. destruct (enable_console (cvars s1)).
  - apply (AttachConsole_flag os s1 s2 Hif).
  - destruct Hif as [-> _]. exact Hflag.
Qed.

Lemma console_state_after_bootstrap_witness :
  exists r s',
    main empty_shell_world = Ret r s' /\ has_console_attached_ s' = true.
Proof.
  destruct (console_state_after_bootstrap empty_shell_world _ _ eq_refl)
    as (r & s' & HM & Hflag & _).
  exists r, s'. split; [exact HM | exact Hflag].
Defined.

(** The run of [Main] after marshalling, event by event past the console
    negotiation. *)
Lemma Main_after_console (os : World) s args s1 :
  parse_launch_arguments os (GetEntryInfo os) [] s = Ret (true, args) s1 ->
  exists s2 cons,
    (if enable_console (cvars s1) then AttachConsole os s1 = Ret tt s2
     else s2 = s1 /\ cons = []) /\
    trace s2 = trace s1 ++ cons /\
    forallb is_console_event cons = true /\
    Main os s
    = Ret (if cpu_has_tAVX os then entry_point (GetEntryInfo os) args else -1)
        {| has_console_attached_ := has_console_attached_ s2;
           cvars := cvars s1;
           trace :=
             trace s2
             ++ [EvCoInitializeEx;
                 EvInitializeLogging (name (GetEntryInfo os))]
             ++ (if cpu_has_tAVX os
                 then [EvLogInfo (build_banner (build_version os))]
                      ++ (if win32_high_freq (cvars s1)
                          then timer_lookups ++ timer_requests os else [])
                      ++ [EvEntryPoint args; EvShutdownLogging]
                 else [EvFatalError avx_message]) |}.
Proof.
  intros Hparse. unfold Main, bind. rewrite Hparse. simpl.
  assert (Hcons : exists s2 cons,
    (if enable_console (cvars s1) then AttachConsole os s1 = Ret tt s2
     else s2 = s1 /\ cons = []) /\
    (if enable_console (cvars s1) then AttachConsole os else ret tt) s1
      = Ret tt s2 /\
    cvars s2 = cvars s1 /\
    trace s2 = trace s1 ++ cons /\
    forallb is_console_event cons = true).
  { destruct (enable_console (cvars s1)).
    - destruct (AttachConsole_frame os s1) as (s2 & cons & H1 & H2 & H3 & H4).
      exists s2, cons. auto.
    - exists s1, []. rewrite app_nil_r. auto. }
  destruct Hcons as (s2 & cons & Hif & Hrun & Hcv & Htr & Hall).
  exists s2, cons. split; [exact Hif|]. split; [exact Htr|].
  split; [exact Hall|].
  rewrite Hrun. simpl.
  destruct (cpu_has_tAVX os); simpl.
  - rewrite Hcv. destruct (win32_high_freq (cvars s1)).
    + rewrite RequestHighPerformance_eq. unfold ret. simpl.
      fold (timer_requests os). rewrite <- !app_assoc. reflexivity.
    + unfold ret. simpl. rewrite <- !app_assoc. reflexivity.
  - unfold ret. simpl. rewrite Hcv, <- !app_assoc. reflexivity.
Qed.

(** X10.  In a run whose arguments were marshalled, COM is initialised
    once and logging once, directly after it and under the entry
    descriptor's name; only marshalling and console events come before, and
    none of the fatal error, the banner, the timer negotiation and the entry
    point does. *)
Theorem subsystems_initialised_once_in_order (os : World) args s1 :
  parse_launch_arguments os (GetEntryInfo os) [] initial_state
  = Ret (true, args) s1 ->
  exists r s' before after,
    main os = Ret r s' /\
    trace s' =
      before
      ++ [EvCoInitializeEx; EvInitializeLogging (name (GetEntryInfo os))]
      ++ after /\
    forallb (fun e => is_marshalling_event e || is_console_event e) before
    = true /\
    occurrences is_subsystem_event after = 0%nat.
Proof.
  intros Hparse.
  destruct (marshalling_from_initial_state os) as [_ Hm]. simpl in Hm.
  rewrite Hparse in Hm. simpl in Hm.
  destruct (Main_after_console os _ _ _ Hparse)
    as (s2 & cons & _ & Hs2 & Hcons & HM).
  eexists. eexists. exists (trace s1 ++ cons). eexists.
  unfold main. split; [exact HM|]. simpl. rewrite Hs2.
  split; [reflexivity|]. split.
  - rewrite forallb_app. apply andb_true_iff. split.
    + apply forallb_forall. intros e He.
      rewrite (proj1 (forallb_forall _ _) Hm e He). reflexivity.
    + apply forallb_forall. intros e He.
      rewrite (proj1 (forallb_forall _ _) Hcons e He). apply orb_true_r.
  - unfold timer_requests.
    destruct (cpu_has_tAVX os); [|reflexivity].
    destruct (win32_high_freq (cvars s1)); [|reflexivity].
    destruct (os_GetProcAddress os "ntdll.dll" "NtQueryTimerResolution");
      destruct (os_GetProcAddress os "ntdll.dll" "NtSetTimerResolution");
      reflexivity.
Qed.

Lemma subsystems_initialised_once_in_order_witness :
  exists r s' before after,
    main console_world = Ret r s' /\
    trace s' =
      before ++ [EvCoInitializeEx; EvInitializeLogging "xenia"] ++ after.
Proof.
  destruct (subsystems_initialised_once_in_order console_world _ _ eq_refl)
    as (r & s' & before & after & HM & Htr & _).
  exists r, s', before, after. split; [exact HM | exact Htr].
Defined.

(** X11.  With transparent options and tokens the locale can convert, the
    whole run is fixed by the surroundings: the configuration stays at its
    defaults, so no console is negotiated and the flag stays true, the timer
    is negotiated whenever the CPU passes the gate, and the entry point
    receives the narrow tokens in order. *)
Theorem transparent_run (os : World) (wargv : list wstr) :
  transparent_options (GetEntryInfo os) = true ->
  os_CommandLineToArgvW os = Some wargv ->
  forallb (convertible os) wargv = true ->
  let args := map (narrow os) wargv in
  main os
  = Ret (if cpu_has_tAVX os then entry_point (GetEntryInfo os) args else -1)
      {| has_console_attached_ := true;
         cvars := default_cvars;
         trace :=
           [EvGetCommandLineW; EvCommandLineToArgvW; EvLocalFree;
            EvCoInitializeEx; EvInitializeLogging (name (GetEntryInfo os))]
           ++ (if cpu_has_tAVX os
               then [EvLogInfo (build_banner (build_version os))] ++ timer_lookups
                    ++ timer_requests os
                    ++ [EvEntryPoint args; EvShutdownLogging]
               else [EvFatalError avx_message]) |}.
Proof.
  intros Htr Hargv Hconv args.
  pose proof (parse_launch_arguments_convertible os (GetEntryInfo os) wargv
                [] initial_state Hargv Hconv) as Hparse.
  simpl in Hparse. rewrite Htr in Hparse.
  destruct (Main_after_console os _ _ _ Hparse)
    as (s2 & cons & Hif & _ & _ & HM).
  simpl in Hif. destruct Hif as [-> _].
  unfold main. rewrite HM. simpl. fold args.
  destruct (cpu_has_tAVX os); reflexivity.
Qed.

Lemma transparent_run_witness :
  exists s',
    main sample_world = Ret 3 s' /\ cvars s' = default_cvars.
Proof.
  eexists.
  rewrite (transparent_run sample_world
             [wide "prog.exe"; wide "--flag"; wide "value"]
             eq_refl eq_refl eq_refl).
  split; reflexivity.
Defined.

(** X12.  When the timer request is enabled and the CPU passes the gate,
    the timer is negotiated exactly once, after the banner and directly
    before the entry point: the two lookups, then the query and the request
    if both were found. *)
Theorem timer_negotiated_before_entry_point (os : World) args s1 :
  parse_launch_arguments os (GetEntryInfo os) [] initial_state
  = Ret (true, args) s1 ->
  cpu_has_tAVX os = true ->
  win32_high_freq (cvars s1) = true ->
  exists s' before,
    main os = Ret (entry_point (GetEntryInfo os) args) s' /\
    trace s' =
      before ++ [EvLogInfo (build_banner (build_version os))] ++ timer_lookups ++ timer_requests os
      ++ [EvEntryPoint args; EvShutdownLogging] /\
    occurrences is_timer_event before = 0%nat.
Proof.
  intros Hparse Havx Hon.
  destruct (marshalling_from_initial_state os) as [_ Hm]. simpl in Hm.
  rewrite Hparse in Hm. simpl in Hm.
  destruct (Main_after_console os _ _ _ Hparse)
    as (s2 & cons & _ & Hs2 & Hcons & HM).
  rewrite Havx, Hon in HM.
  eexists.
  exists (trace s1 ++ cons
          ++ [EvCoInitializeEx; EvInitializeLogging (name (GetEntryInfo os))]).
  unfold main. split; [exact HM|]. simpl. rewrite Hs2. split.
  - rewrite <- !app_assoc. reflexivity.
  - count_events. reflexivity.
Qed.

Lemma timer_negotiated_before_entry_point_witness :
  exists s' before,
    main sample_world = Ret 3 s' /\
    trace s' =
      before ++ [EvLogInfo (build_banner (build_version sample_world))]
      ++ timer_lookups ++ timer_requests sample_world
      ++ [EvEntryPoint ["prog.exe"; "--flag"; "value"]%string;
          EvShutdownLogging].
Proof.
  destruct (timer_negotiated_before_entry_point sample_world _ _
              eq_refl eq_refl eq_refl) as (s' & before & HM & Htr & _).
  exists s', before. split; [exact HM | exact Htr].
Defined.

(** X13.  In a run whose arguments were marshalled, exactly one of the
    fatal error and the build banner is emitted: the fatal error, with the
    AVX message, on a CPU without AVX, the banner on one with it. *)
Theorem gate_reports_or_banner (os : World) args s1 :
  parse_launch_arguments os (GetEntryInfo os) [] initial_state
  = Ret (true, args) s1 ->
  exists r s',
    main os = Ret r s' /\
    filter is_fatal_error (trace s')
    = (if cpu_has_tAVX os then [] else [EvFatalError avx_message]) /\
    occurrences is_log_info (trace s')
    = (if cpu_has_tAVX os then 1 else 0)%nat.
Proof.
  intros Hparse.
  destruct (marshalling_from_initial_state os) as [_ Hm]. simpl in Hm.
  rewrite Hparse in Hm. simpl in Hm.
  destruct (Main_marshalled os _ _ _ Hparse)
    as (s2 & cons & tim & s' & HM & _ & Hs2 & Hcons & _ & Htim & _ & _ & Htr).
  eexists. exists s'. split; [exact HM|].
  assert (Hnone : forall q l,
    forallb q l = true ->
    (forall e, q e = true -> is_fatal_error e = false) ->
    filter is_fatal_error l = []).
  { intros q l Hq Hdis.
    pose proof (occurrences_disjoint q is_fatal_error l Hq Hdis) as Hzero.
    unfold occurrences in Hzero.
    destruct (filter is_fatal_error l); [reflexivity|discriminate]. }
  rewrite Htr, Hs2. split.
  - rewrite !filter_app.
    rewrite (Hnone _ _ Hm) by disjoint_events.
    rewrite (Hnone _ _ Hcons) by disjoint_events.
    destruct (cpu_has_tAVX os); [|reflexivity].
    simpl. rewrite filter_app.
    rewrite (Hnone _ _ Htim) by disjoint_events. reflexivity.
  - destruct (cpu_has_tAVX os); count_events; reflexivity.
Qed.

Lemma gate_reports_or_banner_witness :
  exists r s',
    main (with_cpu false sample_world) = Ret r s' /\
    filter is_fatal_error (trace s') = [EvFatalError avx_message].
Proof.
  destruct (gate_reports_or_banner (with_cpu false sample_world) _ _ eq_refl)
    as (r & s' & HM & Hfatal & _).
  exists r, s'. split; [exact HM | exact Hfatal].
Defined.
